(** * Survey analysis toolkit: row filters, distributions, statistics, session

    A shallow embedding of the analytic core of the repository:

    - [so_survey/subset.py]   ([filter_by_column], [filter_by_value_range]),
    - [so_survey/stats.py]    ([describe]),
    - [stack_survey/survey.py] ([Survey.answer_distribution]),
    - [so_survey/repl.py]     (the [SurveyREPL] command handlers),

    together with a model of the few pandas operations these functions call.
    Python exceptions are values of [exn]; a computation that may raise
    returns a [result]. *)

From Stdlib Require Import List Bool Arith ZArith QArith Qreduction.
From Stdlib Require Import String Ascii DecimalString Lia Permutation Sorted.
Import ListNotations.

Local Open Scope string_scope.
Local Open Scope list_scope.
Local Open Scope nat_scope.

(** ** Python: exceptions, results, strings *)

Module Py.

(** The exceptions the modelled code can meet.  [KeyboardInterrupt] is the
    only one that is not a subclass of [Exception]. *)
Inductive exn : Type :=
| KeyError (missing : list string) (available : list string)
| ValueError (msg : string)
| TypeError
| NameError (name : string)
| ZeroDivisionError
| EOFError
| OSError
| KeyboardInterrupt.

Inductive result (A : Type) : Type :=
| Ok (a : A)
| Raise (e : exn).
Arguments Ok {A} a.
Arguments Raise {A} e.

Definition bind {A B} (m : result A) (k : A -> result B) : result B :=
  match m with
  | Ok a => k a
  | Raise e => Raise e
  end.

(** [except Exception] catches everything but [KeyboardInterrupt]. *)
Definition is_Exception (e : exn) : bool :=
  match e with
  | KeyboardInterrupt => false
  | _ => true
  end.

(** Monadic map: evaluates [f] left to right, stops at the first raise. *)
Fixpoint mapM {A B} (f : A -> result B) (l : list A) : result (list B) :=
  match l with
  | [] => Ok []
  | x :: xs =>
      bind (f x) (fun y => bind (mapM f xs) (fun ys => Ok (y :: ys)))
  end.

(** *** Strings *)

(** [str.isspace] on the ASCII range. *)
Definition isspace (c : ascii) : bool :=
  let n := nat_of_ascii c in
  ((9 <=? n) && (n <=? 13)) || ((28 <=? n) && (n <=? 32)).

Fixpoint lstrip (s : string) : string :=
  match s with
  | EmptyString => EmptyString
  | String c s' => if isspace c then lstrip s' else s
  end.

(** Drops trailing whitespace: a character is kept when something that is
    not whitespace follows it or it is not whitespace itself. *)
Fixpoint rstrip (s : string) : string :=
  match s with
  | EmptyString => EmptyString
  | String c s' =>
      match rstrip s' with
      | EmptyString => if isspace c then EmptyString else String c EmptyString
      | r => String c r
      end
  end.

(** [s.strip()] *)
Definition strip (s : string) : string := rstrip (lstrip s).

(** [s.split(sep)] for a one-character separator: never returns the empty
    list, [''.split(';') = ['']]. *)
Fixpoint split (sep : ascii) (s : string) : list string :=
  match s with
  | EmptyString => [EmptyString]
  | String c s' =>
      if Ascii.eqb c sep then EmptyString :: split sep s'
      else
        match split sep s' with
        | [] => [String c EmptyString]
        | w :: ws => String c w :: ws
        end
  end.

Definition lower_ascii (c : ascii) : ascii :=
  let n := nat_of_ascii c in
  if (65 <=? n) && (n <=? 90) then ascii_of_nat (n + 32) else c.

(** [s.lower()] on ASCII text. *)
Fixpoint lower (s : string) : string :=
  match s with
  | EmptyString => EmptyString
  | String c s' => String (lower_ascii c) (lower s')
  end.

(** [x in xs] for a list of strings. *)
Definition str_in (x : string) (xs : list string) : bool :=
  existsb (String.eqb x) xs.

(** [str(n)] for an [int]. *)
Definition str_of_int (z : Z) : string :=
  NilZero.string_of_int (Z.to_int z).

End Py.
Import Py.

Notation "x <- m ;; k" := (Py.bind m (fun x => k))
  (at level 61, m at next level, right associativity).

(** ** pandas: the table abstraction *)

Module Pandas.

(** A cell: a Python [int], a finite [float], a [str], or the missing
    marker (NaN / None). *)
Inductive cell : Type :=
| CInt (z : Z)
| CFloat (q : Q)
| CStr (s : string)
| CNaN.

(** Column dtypes: the two numeric ones and [object]. *)
Inductive dtype : Type := Int64 | Float64 | Object.

Definition is_number (d : dtype) : bool :=
  match d with
  | Int64 | Float64 => true
  | Object => false
  end.

Record Series : Type := mkSeries {
  s_dtype : dtype;
  s_index : list Z;
  s_values : list cell
}.

Record Column : Type := mkColumn {
  col_name : string;
  col_dtype : dtype;
  col_values : list cell
}.

(** A DataFrame: the row labels (the index) and the columns in display
    order, each holding one cell per row label. *)
Record DataFrame : Type := mkDF {
  df_index : list Z;
  df_columns : list Column
}.

Definition columns (df : DataFrame) : list string :=
  map col_name (df_columns df).

Definition is_str (c : cell) : bool :=
  match c with
  | CStr _ => true
  | _ => false
  end.

(** The table invariant: column names are unique, every column has one
    cell per row label, and a column of a numeric dtype holds no text. *)
Definition wf (df : DataFrame) : Prop :=
  NoDup (columns df)
  /\ Forall (fun c => List.length (col_values c) = List.length (df_index df))
            (df_columns df)
  /\ Forall (fun c => is_number (col_dtype c) = true ->
                      Forall (fun x => is_str x = false) (col_values c))
            (df_columns df).

(** [column in df.columns] *)
Definition contains (df : DataFrame) (column : string) : bool :=
  str_in column (columns df).

Definition find_column (df : DataFrame) (column : string) : option Column :=
  find (fun c => String.eqb column (col_name c)) (df_columns df).

(** [df[column]] *)
Definition getitem (df : DataFrame) (column : string) : result Series :=
  match find_column df column with
  | Some c => Ok (mkSeries (col_dtype c) (df_index df) (col_values c))
  | None => Raise (KeyError [column] (columns df))
  end.

(** [df.shape[0]] *)
Definition nrows (df : DataFrame) : nat := List.length (df_index df).

(** *** Values *)

Definition isna (c : cell) : bool :=
  match c with
  | CNaN => true
  | _ => false
  end.

Definition num_of (c : cell) : option Q :=
  match c with
  | CInt z => Some (inject_Z z)
  | CFloat q => Some q
  | _ => None
  end.

(** Equality as the hash tables behind [isin], [unique] and
    [value_counts] see it: numbers by value ([1 == 1.0]), strings by
    content, a number never equals a string, and missing markers are
    identified with each other. *)
Definition cell_eqb (a b : cell) : bool :=
  match a, b with
  | CStr s, CStr t => String.eqb s t
  | CNaN, CNaN => true
  | _, _ =>
      match num_of a, num_of b with
      | Some x, Some y => Qeq_bool x y
      | _, _ => false
      end
  end.

(** *** Boolean masks *)

(** [s.isin(values)] *)
Definition isin (s : Series) (values : list cell) : list bool :=
  map (fun c => existsb (cell_eqb c) values) (s_values s).

(** Keeps the positions of [l] at which the mask holds. *)
Fixpoint select {A} (mask : list bool) (l : list A) : list A :=
  match mask, l with
  | b :: mask', x :: l' =>
      if b then x :: select mask' l' else select mask' l'
  | _, _ => []
  end.

(** [df[mask]]: the same columns, the masked rows with their labels. *)
Definition getitem_mask (df : DataFrame) (mask : list bool) : DataFrame :=
  mkDF (select mask (df_index df))
       (map (fun c => mkColumn (col_name c) (col_dtype c)
                               (select mask (col_values c)))
            (df_columns df)).

(** [df.copy()]: tables are values here, a copy is the table itself. *)
Definition copy (df : DataFrame) : DataFrame := df.

(** [df.empty] *)
Definition empty (df : DataFrame) : bool :=
  match df_index df, df_columns df with
  | [], _ => true
  | _, [] => true
  | _, _ => false
  end.

(** [s.dropna()] on the values. *)
Definition dropna (l : list cell) : list cell :=
  filter (fun c => negb (isna c)) l.

(** [s.unique()]: distinct values in order of first appearance. *)
Fixpoint unique_acc (seen : list cell) (l : list cell) : list cell :=
  match l with
  | [] => []
  | x :: l' =>
      if existsb (cell_eqb x) seen then unique_acc seen l'
      else x :: unique_acc (x :: seen) l'
  end.
Definition unique (l : list cell) : list cell := unique_acc [] l.

(** *** Rows, as a view of the columns *)

(** The rows of a table: each row label with the cells of that row in
    column order. *)
Fixpoint rows_of (idx : list Z) (cols : list (list cell))
  : list (Z * list cell) :=
  match idx with
  | [] => []
  | i :: idx' =>
      (i, map (fun c => hd CNaN c) cols)
        :: rows_of idx' (map (fun c => tl c) cols)
  end.

Definition rows (df : DataFrame) : list (Z * list cell) :=
  rows_of (df_index df) (map col_values (df_columns df)).

(** Position of a column name in the header. *)
Fixpoint position (column : string) (names : list string) : option nat :=
  match names with
  | [] => None
  | n :: names' =>
      if String.eqb column n then Some 0
      else option_map S (position column names')
  end.

(** The cell of a row under a column name (missing if there is none). *)
Definition row_cell (df : DataFrame) (column : string)
           (r : Z * list cell) : cell :=
  match position column (columns df) with
  | Some k => nth k (snd r) CNaN
  | None => CNaN
  end.


(** [df[keys]] for a list of names: every name must be a column. *)
Definition getitem_list (df : DataFrame) (keys : list string)
  : result DataFrame :=
  match filter (fun k => negb (contains df k)) keys with
  | [] =>
      Ok (mkDF (df_index df)
               (flat_map (fun k => match find_column df k with
                                   | Some c => [c]
                                   | None => []
                                   end) keys))
  | missing => Raise (KeyError missing (columns df))
  end.

(** [df.select_dtypes(include=['number'])] *)
Definition select_dtypes_number (df : DataFrame) : DataFrame :=
  mkDF (df_index df)
       (filter (fun c => is_number (col_dtype c)) (df_columns df)).

(** *** Comparison with a scalar *)

Inductive cmp_op : Type := Ge | Le.

Definition compare_num (op : cmp_op) (x y : Q) : bool :=
  match op with
  | Ge => Qle_bool y x
  | Le => Qle_bool x y
  end.

(** Strings compare lexicographically by character code. *)
Definition compare_str (op : cmp_op) (s t : string) : bool :=
  match op with
  | Ge => String.leb t s
  | Le => String.leb s t
  end.

(** One cell against the bound, as Python's rich comparison does it: a
    missing cell compares false, a number and a string do not compare. *)
Definition scalar_compare (op : cmp_op) (x bound : cell) : result bool :=
  match x with
  | CNaN => Ok false
  | CStr s =>
      match bound with
      | CStr t => Ok (compare_str op s t)
      | _ => Raise TypeError
      end
  | _ =>
      match num_of x, num_of bound with
      | Some a, Some b => Ok (compare_num op a b)
      | _, _ => Raise TypeError
      end
  end.

(** [s >= bound] and [s <= bound]: a missing bound compares false
    everywhere; a numeric column refuses a string bound whatever it
    holds; otherwise the cells are compared one by one. *)
Definition series_compare (op : cmp_op) (s : Series) (bound : cell)
  : result (list bool) :=
  if isna bound then Ok (map (fun _ => false) (s_values s))
  else if is_number (s_dtype s) && is_str bound then Raise TypeError
  else mapM (fun x => scalar_compare op x bound) (s_values s).

(** *** Counting *)

(** One step of the counting pass: the key's count grows, a new key goes
    to the end, so keys stay in order of first appearance. *)
Fixpoint bump (k : cell) (acc : list (cell * nat)) : list (cell * nat) :=
  match acc with
  | [] => [(k, 1)]
  | (k', n) :: acc' =>
      if cell_eqb k k' then (k', S n) :: acc' else (k', n) :: bump k acc'
  end.

Definition count_keys (l : list cell) : list (cell * nat) :=
  fold_left (fun acc x => bump x acc) l [].

(** The sort of a short array is a straight insertion sort, which is
    stable: an entry goes in front of the first entry that does not have
    a smaller count. *)
Fixpoint insert_by_count (x : cell * nat) (l : list (cell * nat))
  : list (cell * nat) :=
  match l with
  | [] => [x]
  | y :: l' => if snd x <=? snd y then x :: l else y :: insert_by_count x l'
  end.

Definition sort_by_count (l : list (cell * nat)) : list (cell * nat) :=
  fold_right insert_by_count [] l.

(** [counts.sort_values(ascending=False)]: the entries are reversed,
    sorted by ascending count, and reversed back, so that entries with
    equal counts keep the order they had. *)
Definition sort_values_desc (l : list (cell * nat)) : list (cell * nat) :=
  rev (sort_by_count (rev l)).

(** [s.value_counts()] (with [dropna=True], the default). *)
Definition value_counts (l : list cell) : list (cell * nat) :=
  sort_values_desc (count_keys (dropna l)).

(** [counts.sum()] *)
Definition counts_sum (counts : list (cell * nat)) : nat :=
  fold_right (fun kc acc => snd kc + acc) 0 counts.

(** *** Reductions of a numeric column (missing cells skipped) *)

(** An entry of a statistics table: a number, the square root of a
    number, or NaN.  Numbers are kept in lowest terms. *)
Inductive stat : Type :=
| Num (q : Q)
| Sqrt (q : Q)
| NaN.

(** The value of a cell with the mask applied: a masked cell counts 0. *)
Definition masked (c : cell) : Q :=
  match num_of c with
  | Some q => q
  | None => 0%Q
  end.

Definition notna_count (l : list cell) : nat :=
  List.length (filter (fun c => negb (isna c)) l).

Definition Qsum (l : list Q) : Q := fold_right Qplus 0%Q l.

Definition Qnat (n : nat) : Q := inject_Z (Z.of_nat n).

(** [s.count()] *)
Definition count (l : list cell) : stat := Num (Qred (Qnat (notna_count l))).

(** [s.mean()]: the masked sum over the number of cells not missing. *)
Definition mean (l : list cell) : stat :=
  let n := notna_count l in
  if n =? 0 then NaN
  else Num (Qred (Qsum (map masked l) / Qnat n)).

(** [s.std()] with [ddof = 1]: the squared distances of the unmasked
    cells to the average, summed, over [count - ddof], under a root. *)
Definition std (l : list cell) : stat :=
  let n := notna_count l in
  if n <=? 1 then NaN
  else
    let avg := (Qsum (map masked l) / Qnat n)%Q in
    let sqr := map (fun c => if isna c then 0%Q
                             else ((avg - masked c) * (avg - masked c))%Q) l in
    Sqrt (Qred (Qsum sqr / Qnat (n - 1))).

Fixpoint insert_asc (x : Q) (l : list Q) : list Q :=
  match l with
  | [] => [x]
  | y :: l' => if Qle_bool x y then x :: l else y :: insert_asc x l'
  end.

Definition sort_asc (l : list Q) : list Q :=
  fold_right insert_asc [] l.

(** The numbers of a column, missing cells removed. *)
Definition numbers (l : list cell) : list Q :=
  flat_map (fun c => match num_of c with
                     | Some q => [q]
                     | None => []
                     end) l.

(** [s.median()]: the numbers sorted, then the middle one, or the mean of
    the two middle ones. *)
Definition median (l : list cell) : stat :=
  let sorted := sort_asc (numbers l) in
  let n := List.length sorted in
  if n =? 0 then NaN
  else if Nat.even n then
    Num (Qred ((nth (n / 2 - 1) sorted 0%Q + nth (n / 2) sorted 0%Q) / 2))
  else Num (Qred (nth (n / 2) sorted 0%Q)).

Definition Qmin' (a b : Q) : Q := if Qle_bool a b then a else b.
Definition Qmax' (a b : Q) : Q := if Qle_bool a b then b else a.

(** [s.min()] and [s.max()] *)
Definition min (l : list cell) : stat :=
  match numbers l with
  | [] => NaN
  | x :: xs => Num (Qred (fold_left Qmin' xs x))
  end.

Definition max (l : list cell) : stat :=
  match numbers l with
  | [] => NaN
  | x :: xs => Num (Qred (fold_left Qmax' xs x))
  end.

(** *** Frames of statistics *)

(** A frame whose row labels are strings. *)
Record StatsFrame : Type := mkSF {
  sf_index : list string;
  sf_columns : list (string * list stat)
}.

(** A reduction applied to every column: a series indexed by the column
    names. *)
Definition reduce (f : list cell -> stat) (df : DataFrame)
  : list (string * stat) :=
  map (fun c => (col_name c, f (col_values c))) (df_columns df).

(** [pd.DataFrame(d)] for a dict of series that share one index: the keys
    become the columns, the shared index the row labels. *)
Definition frame_of_dict (d : list (string * list (string * stat)))
  : StatsFrame :=
  mkSF (match d with
        | [] => []
        | (_, s) :: _ => map fst s
        end)
       (map (fun kv => (fst kv, map snd (snd kv))) d).

Fixpoint stat_rows (idx : list string) (cols : list (list stat))
  : list (string * list stat) :=
  match idx with
  | [] => []
  | i :: idx' =>
      (i, map (fun c => hd NaN c) cols)
        :: stat_rows idx' (map (fun c => tl c) cols)
  end.

(** [frame.T]: row labels and column names change places. *)
Definition transpose (f : StatsFrame) : StatsFrame :=
  mkSF (map fst (sf_columns f))
       (stat_rows (sf_index f) (map snd (sf_columns f))).


(** [df.head(n)]: the first [n] rows, or all but the last [-n]. *)
Definition head (n : Z) (df : DataFrame) : DataFrame :=
  let k := if (0 <=? n)%Z then Z.to_nat n
           else nrows df - Z.to_nat (- n) in
  mkDF (firstn k (df_index df))
       (map (fun c => mkColumn (col_name c) (col_dtype c)
                               (firstn k (col_values c)))
            (df_columns df)).

(** [df.tail(n)]: the last [n] rows, or all but the first [-n]. *)
Definition tail (n : Z) (df : DataFrame) : DataFrame :=
  let k := if (0 <=? n)%Z then nrows df - Z.to_nat n
           else Z.to_nat (- n) in
  mkDF (skipn k (df_index df))
       (map (fun c => mkColumn (col_name c) (col_dtype c)
                               (skipn k (col_values c)))
            (df_columns df)).



End Pandas.
Import Pandas.

(** ** so_survey/subset.py *)

Module Subset.

(** The advisory printed when a value filter keeps no row: the requested
    values and the first 20 distinct values of the column. *)
Inductive diagnostic : Type :=
| NoRowsFound (values : list cell) (available : list cell).

(** [filter_by_column(df, column, values)] *)
Definition filter_by_column (df : DataFrame) (column : string)
           (values : list cell) : result (DataFrame * list diagnostic) :=
  if negb (contains df column) then
    Raise (KeyError [column] (columns df))
  else
    let values_list := values in
    match values_list with
    | [] => Raise (ValueError "Values list cannot be empty")
    | _ =>
        s <- getitem df column ;;
        let filtered_df := copy (getitem_mask df (isin s values_list)) in
        if empty filtered_df then
          let unique_values := unique (dropna (s_values s)) in
          Ok (filtered_df,
              [NoRowsFound values_list (firstn 20 unique_values)])
        else Ok (filtered_df, [])
    end.


(** [filter_by_value_range(df, column, min_value, max_value)] *)
Definition filter_by_value_range (df : DataFrame) (column : string)
           (min_value max_value : option cell) : result DataFrame :=
  if negb (contains df column) then
    Raise (KeyError [column] (columns df))
  else
    let result := copy df in
    result <- match min_value with
              | Some lo =>
                  s <- getitem result column ;;
                  mask <- series_compare Ge s lo ;;
                  Ok (getitem_mask result mask)
              | None => Ok result
              end ;;
    result <- match max_value with
              | Some hi =>
                  s <- getitem result column ;;
                  mask <- series_compare Le s hi ;;
                  Ok (getitem_mask result mask)
              | None => Ok result
              end ;;
    Ok result.

End Subset.
Import Subset.

(** ** so_survey/stats.py *)

Module Stats.

(** [describe(df, include)] *)
Definition describe (df : DataFrame) (include : option (list string))
  : result StatsFrame :=
  df <- match include with
        | Some cols => df' <- getitem_list df cols ;; Ok (copy df')
        | None => Ok df
        end ;;
  let numeric_df := select_dtypes_number df in
  let stats :=
    transpose
      (frame_of_dict
         [ ("count", reduce Pandas.count numeric_df);
           ("mean", reduce Pandas.mean numeric_df);
           ("median", reduce Pandas.median numeric_df);
           ("std", reduce Pandas.std numeric_df);
           ("min", reduce Pandas.min numeric_df);
           ("max", reduce Pandas.max numeric_df) ]) in
  Ok stats.

End Stats.
Import Stats.

(** ** stack_survey/survey.py *)

Module StackSurvey.

Record Survey : Type := mkSurvey {
  xlsx_path : string;
  df : DataFrame;
  questions : list string
}.

(** [cnt / total] on counts: a zero denominator is flagged. *)
Definition true_div (cnt total : nat) : result Q :=
  if total =? 0 then Raise ZeroDivisionError
  else Ok (Qred (Qnat cnt / Qnat total)).

(** A dict, keys in insertion order; setting a key that is present keeps
    its place. *)
Fixpoint dict_set (k : cell) (v : Q) (d : list (cell * Q))
  : list (cell * Q) :=
  match d with
  | [] => [(k, v)]
  | (k', v') :: d' =>
      if cell_eqb k k' then (k', v) :: d' else (k', v') :: dict_set k v d'
  end.

(** [{opt: cnt / total for opt, cnt in counts.items()}] *)
Fixpoint dict_comp (total : nat) (items : list (cell * nat))
         (d : list (cell * Q)) : result (list (cell * Q)) :=
  match items with
  | [] => Ok d
  | (opt, cnt) :: items' =>
      share <- true_div cnt total ;;
      dict_comp total items' (dict_set opt share d)
  end.

Section Rendering.

(** [str(x)] for a float [x] is left to the interpreter. *)
Variable repr_float : Q -> string.

(** [str(c)], what [astype(str)] puts in a cell. *)
Definition str_of_cell (c : cell) : string :=
  match c with
  | CInt z => str_of_int z
  | CFloat q => repr_float q
  | CStr s => s
  | CNaN => "nan"
  end.

(** The answers of one column, one list of options per row that has an
    answer: [s.dropna().astype(str).str.split(';')]. *)
Definition split_options (l : list cell) : list (list string) :=
  map (fun c => split ";" (str_of_cell c)) (dropna l).

(** [Survey.answer_distribution(question, multiple_choice)] *)
Definition answer_distribution (self : Survey) (question : string)
           (multiple_choice : bool) : result (list (cell * Q)) :=
  if negb (contains (df self) question) then Ok []
  else
    s <- getitem (df self) question ;;
    if multiple_choice then
      let all_options := split_options (s_values s) in
      let flat :=
        flat_map (fun sublist => map (fun opt => strip opt) sublist)
                 all_options in
      let total := List.length flat in
      let counts := value_counts (map CStr flat) in
      dict_comp total counts []
    else
      let counts := value_counts (s_values s) in
      let total := counts_sum counts in
      dict_comp total counts [].

End Rendering.

End StackSurvey.
Import StackSurvey.



(** ** so_survey/repl.py *)

Module Repl.

(** The attributes of a [SurveyREPL] object. *)
Record SurveyREPL : Type := mkREPL {
  current_dataset : option string;
  current_df : option DataFrame;
  directory : option string
}.

(** [SurveyREPL.__init__] *)
Definition init : SurveyREPL := mkREPL None None None.

Definition set_current_df (self : SurveyREPL) (t : DataFrame) : SurveyREPL :=
  mkREPL (current_dataset self) (Some t) (directory self).

(** What reaches the terminal.  A printed line is the list of the pieces
    of its f-string; the blank lines that some messages start with are
    left out. *)
Inductive piece : Type :=
| Lit (s : string)
| PNat (n : nat)
| PStr (s : string)
| PName (n : option string)
| PDtype (d : dtype)
| PMemory (t : DataFrame)
| PExn (e : exn).

Inductive out : Type :=
| Echo (line : list piece)
| FrameText (t : DataFrame)
| StatsText (t : StatsFrame)
| Advisory (d : diagnostic)
| Prompt (s : string)
| Written (t : DataFrame) (filename : string).

(** How a handler ends: it returned [None], it returned [True], or an
    exception left it. *)
Inductive status : Type :=
| Continue
| Stop
| Raised (e : exn).

Record outcome : Type := mkOutcome {
  session : SurveyREPL;
  printed : list out;
  ending : status
}.

(** A handler body: what it printed so far, and its value or the
    exception that interrupted it. *)
Definition io (A : Type) : Type := (list out * result A)%type.

Definition io_ret {A} (a : A) : io A := ([], Ok a).

Definition io_bind {A B} (m : io A) (k : A -> io B) : io B :=
  match m with
  | (o, Ok a) => let (o', r) := k a in (o ++ o', r)
  | (o, Raise e) => (o, Raise e)
  end.

Definition lift {A} (r : result A) : io A := ([], r).

Definition print (line : list piece) : io unit := ([Echo line], Ok tt).

Definition emit (o : list out) : io unit := (o, Ok tt).

Notation "x <~ m ;; k" := (io_bind m (fun x => k))
  (at level 61, m at next level, right associativity).
Notation "m ;;; k" := (io_bind m (fun _ => k))
  (at level 61, right associativity).

(** [try: body  except Exception as e: print(f"{prefix}{e}")] around a
    body that ends the handler. *)
Definition try_except (self : SurveyREPL) (prefix : string)
           (body : io SurveyREPL) : outcome :=
  match body with
  | (o, Ok self') => mkOutcome self' o Continue
  | (o, Raise e) =>
      if is_Exception e
      then mkOutcome self (o ++ [Echo [Lit prefix; PExn e]]) Continue
      else mkOutcome self o (Raised e)
  end.

Definition no_dataset : out :=
  Echo [Lit "No dataset loaded. Use 'load DATASET' first."].

(** The names a handler looks up in the module namespace at call time:
    bound to a function, or not bound at all. *)
Record Globals : Type := mkGlobals {
  g_describe :
    option (DataFrame -> option (list string) -> result StatsFrame);
  g_filter_by_column :
    option (DataFrame -> string -> list cell
            -> result (DataFrame * list diagnostic))
}.

(** The module as written imports [load_survey] and [list_excel_sheets]
    only. *)
Definition repl_globals : Globals := mkGlobals None None.

Definition lookup {A} (name : string) (binding : option A) : result A :=
  match binding with
  | Some f => Ok f
  | None => Raise (NameError name)
  end.

Section Handlers.

Variable globals : Globals.

(** Services of the interpreter and of pandas that the handlers call. *)
Variable shlex_split : string -> result (list string).
Variable int_of_str : string -> result Z.
Variable query : DataFrame -> string -> result DataFrame.
Variable to_csv : DataFrame -> string -> result unit.

(** [input(prompt)]: the prompt is shown, the user's line (or the
    exception that ends the read) comes back. *)
Definition input (prompt : string) (answer : result string) : io string :=
  ([Prompt prompt], answer).

Definition do_info (self : SurveyREPL) (args : string) : outcome :=
  match current_df self with
  | None => mkOutcome self [no_dataset] Continue
  | Some t =>
      mkOutcome self
        ([ Echo [Lit "Current dataset: "; PName (current_dataset self)];
           Echo [Lit "Shape: "; PNat (nrows t); Lit " rows, ";
                  PNat (List.length (df_columns t)); Lit " columns"];
           Echo [Lit "Memory usage: "; PMemory t; Lit " MB"];
           Echo [Lit "Column types:"] ]
         ++ map (fun c => Echo [Lit "  - "; PStr (col_name c); Lit ": ";
                                 PDtype (col_dtype c)])
                (df_columns t))
        Continue
  end.

(** The shared body of [do_head] and [do_tail]. *)
Definition show_rows (part : Z -> DataFrame -> DataFrame)
           (self : SurveyREPL) (args : string) : outcome :=
  match current_df self with
  | None => mkOutcome self [no_dataset] Continue
  | Some t =>
      match (if String.eqb (strip args) "" then Ok 5%Z
             else int_of_str args) with
      | Ok n => mkOutcome self [FrameText (part n t)] Continue
      | Raise (ValueError _) =>
          mkOutcome self [Echo [Lit "Error: Invalid number"]] Continue
      | Raise e => mkOutcome self [] (Raised e)
      end
  end.

Definition do_head := show_rows head.
Definition do_tail := show_rows tail.

Definition do_columns (self : SurveyREPL) (args : string) : outcome :=
  match current_df self with
  | None => mkOutcome self [no_dataset] Continue
  | Some t =>
      mkOutcome self
        (Echo [Lit "Columns:"]
         :: map (fun ic => Echo [PNat (fst ic); Lit ". "; PStr (snd ic)])
                (combine (seq 1 (List.length (columns t))) (columns t)))
        Continue
  end.

Definition do_describe (self : SurveyREPL) (args : string) : outcome :=
  match current_df self with
  | None => mkOutcome self [no_dataset] Continue
  | Some t =>
      try_except self "Error calculating statistics: "
        (cols <~ lift (if String.eqb (strip args) "" then Ok None
                       else l <- shlex_split args ;; Ok (Some l)) ;;
         describe <~ lift (lookup "describe" (g_describe globals)) ;;
         stats_df <~ lift (describe t cols) ;;
         print [Lit "Descriptive Statistics:"] ;;;
         emit [StatsText stats_df] ;;;
         io_ret self)
  end.

Definition do_filter (self : SurveyREPL) (args : string)
           (answer : result string) : outcome :=
  match current_df self with
  | None => mkOutcome self [no_dataset] Continue
  | Some t =>
      try_except self "Error filtering dataset: "
        (args_list <~ lift (shlex_split args) ;;
         if List.length args_list <? 2 then
           print [Lit "Error: Column and at least one value required"] ;;;
           io_ret self
         else
           let column := hd "" args_list in
           let values := tl args_list in
           if negb (contains t column) then
             print [Lit "Error: Column '"; PStr column;
                    Lit "' not found"] ;;;
             io_ret self
           else
             filter_by_column <~
               lift (lookup "filter_by_column"
                            (g_filter_by_column globals)) ;;
             res <~ lift (filter_by_column t column (map CStr values)) ;;
             let filtered_df := fst res in
             emit (map Advisory (snd res)) ;;;
             print [Lit "Filtered dataset: "; PNat (nrows filtered_df);
                    Lit " rows (from "; PNat (nrows t); Lit ")"] ;;;
             print [Lit "Preview of filtered data:"] ;;;
             emit [FrameText (head 5 filtered_df)] ;;;
             response <~
               input "Replace current dataset with filtered data? (y/N): "
                     answer ;;
             if str_in (lower response) ["y"; "yes"] then
               print [Lit "Current dataset updated with filtered data."] ;;;
               io_ret (set_current_df self filtered_df)
             else io_ret self)
  end.

Definition do_save (self : SurveyREPL) (args : string) : outcome :=
  match current_df self with
  | None => mkOutcome self [no_dataset] Continue
  | Some t =>
      if String.eqb (strip args) "" then
        mkOutcome self [Echo [Lit "Error: Filename required"]] Continue
      else
        try_except self "Error saving dataset: "
          (let filename := strip args in
           lift (to_csv t filename) ;;;
           emit [Written t filename] ;;;
           print [Lit "Dataset saved to "; PStr filename] ;;;
           io_ret self)
  end.

Definition do_query (self : SurveyREPL) (args : string)
           (answer : result string) : outcome :=
  match current_df self with
  | None => mkOutcome self [no_dataset] Continue
  | Some t =>
      if String.eqb (strip args) "" then
        mkOutcome self [Echo [Lit "Error: Query expression required"]]
                  Continue
      else
        try_except self "Error executing query: "
          (result <~ lift (query t args) ;;
           print [Lit "Query result: "; PNat (nrows result);
                  Lit " rows"] ;;;
           print [Lit "Preview:"] ;;;
           emit [FrameText (head 5 result)] ;;;
           response <~
             input "Replace current dataset with query result? (y/N): "
                   answer ;;
           if str_in (lower response) ["y"; "yes"] then
             print [Lit "Current dataset updated with query result."] ;;;
             io_ret (set_current_df self result)
           else io_ret self)
  end.

Definition do_exit (self : SurveyREPL) (args : string) : outcome :=
  mkOutcome self [Echo [Lit "Goodbye!"]] Stop.

Definition do_quit (self : SurveyREPL) (args : string) : outcome :=
  do_exit self args.

Definition do_EOF (self : SurveyREPL) (args : string) : outcome :=
  mkOutcome self [Echo [Lit ""]; Echo [Lit "Goodbye!"]] Stop.

(** The commands that work on the current dataset, and those that end
    the loop. *)
Inductive command : Type :=
| Cmd_info | Cmd_head | Cmd_tail | Cmd_columns
| Cmd_describe | Cmd_filter | Cmd_save | Cmd_query
| Cmd_exit | Cmd_quit | Cmd_eof.

Definition dataset_scoped (c : command) : bool :=
  match c with
  | Cmd_exit | Cmd_quit | Cmd_eof => false
  | _ => true
  end.

(** One line of input: the command, its argument text, and what the user
    types if the handler asks a question. *)
Record line : Type := mkLine {
  l_command : command;
  l_args : string;
  l_answer : result string
}.

(** [Cmd.onecmd]: the handler named by the command is run. *)
Definition onecmd (self : SurveyREPL) (l : line) : outcome :=
  match l_command l with
  | Cmd_info => do_info self (l_args l)
  | Cmd_head => do_head self (l_args l)
  | Cmd_tail => do_tail self (l_args l)
  | Cmd_columns => do_columns self (l_args l)
  | Cmd_describe => do_describe self (l_args l)
  | Cmd_filter => do_filter self (l_args l) (l_answer l)
  | Cmd_save => do_save self (l_args l)
  | Cmd_query => do_query self (l_args l) (l_answer l)
  | Cmd_exit => do_exit self (l_args l)
  | Cmd_quit => do_quit self (l_args l)
  | Cmd_eof => do_EOF self (l_args l)
  end.

(** [Cmd.cmdloop] over the lines the user enters: commands run one after
    the other until a handler stops the loop or an exception leaves it;
    the end of the input is the [EOF] command. *)
Fixpoint cmdloop (self : SurveyREPL) (lines : list line) : outcome :=
  match lines with
  | [] => do_EOF self ""
  | l :: lines' =>
      let r := onecmd self l in
      match ending r with
      | Continue =>
          let r' := cmdloop (session r) lines' in
          mkOutcome (session r') (printed r ++ printed r') (ending r')
      | _ => r
      end
  end.

End Handlers.

End Repl.
Import Repl.


(** ** Statements of the specification *)

Module Spec.

Section Rendering.

Variable repr_float : Q -> string.



End Rendering.







(** A token's share: its count over the total, in lowest terms. *)
Definition share (total cnt : nat) : Q := Qred (Qnat cnt / Qnat total).

Section Tokens.

Variable repr_float : Q -> string.

(** The tokens of a multi-valued column: every cell that is not missing
    is rendered, split on [;], and each piece trimmed. *)
Definition tokens (values : list cell) : list string :=
  flat_map (fun c => map strip (split ";" (str_of_cell repr_float c)))
           (dropna values).

(** What the distribution counts: the tokens in the multi-valued mode,
    the cells that are not missing otherwise. *)
Definition observations (values : list cell) (multiple_choice : bool)
  : list cell :=
  if multiple_choice then map CStr (tokens values) else dropna values.

End Tokens.



(** An explicit affirmative answer to the replace question: a line that
    reads [y] or [yes], in any letter case. *)
Definition affirmative (answer : result string) : bool :=
  match answer with
  | Ok response => str_in (lower response) ["y"; "yes"]
  | Raise _ => false
  end.


(** *** Statistics of the numbers of a column

    Each statistic is stated over [xs], the numbers of the column with
    the missing cells removed; results are kept in lowest terms. *)










Definition statistics : list string :=
  ["count"; "mean"; "median"; "std"; "min"; "max"].

(** The numeric columns of a table, in order. *)
Definition numeric_columns (t : DataFrame) : list Column :=
  filter (fun c => is_number (col_dtype c)) (df_columns t).

End Spec.

(** ** Sample tables *)

Module Samples.

(** The table of the docstrings of [subset.py] and [stats.py]. *)
Definition people : DataFrame :=
  mkDF [0; 1; 2; 3; 4]%Z
    [ mkColumn "country" Object
        [CStr "USA"; CStr "Canada"; CStr "UK"; CStr "USA"; CStr "Australia"];
      mkColumn "age" Int64 [CInt 25; CInt 30; CInt 35; CInt 40; CInt 45];
      mkColumn "years_coding" Int64
        [CInt 1; CInt 5; CInt 10; CInt 15; CInt 20] ].

(** The table of [tests/test_survey.py]. *)
Definition answers : DataFrame :=
  mkDF [0; 1; 2; 3; 4; 5]%Z
    [ mkColumn "Q1" Object
        [CStr "A"; CStr "B"; CStr "A"; CStr "C"; CStr "A;B"; CStr "B;C"];
      mkColumn "Q2" Object
        [CStr "Yes"; CStr "No"; CStr "Yes"; CStr "No"; CStr "Yes";
         CStr "No"] ].

Definition survey : Survey := mkSurvey "test_survey.xlsx" answers ["Q1"; "Q2"].


(** A column that mixes numbers and text. *)
Definition mixed : DataFrame :=
  mkDF [0; 1; 2]%Z
    [ mkColumn "answer" Object [CInt 7; CStr "seven"; CNaN] ].


(** A session that has loaded the docstring table, and stand-ins for the
    services of the interpreter: arguments split on blanks, no text read
    as a number, a query that keeps every row, a file system that accepts
    every write. *)
Definition loaded : SurveyREPL := mkREPL (Some "people") (Some people) None.

Definition words (s : string) : result (list string) := Ok (split " " s).
Definition no_int (s : string) : result Z := Raise (ValueError s).
Definition all_rows (t : DataFrame) (expr : string) : result DataFrame := Ok t.
Definition accept (t : DataFrame) (filename : string) : result unit := Ok tt.

(** The module namespace had the two analysis functions been imported. *)
Definition with_imports : Globals :=
  mkGlobals (Some describe) (Some filter_by_column).

End Samples.

(** ** Vocabulary of the proofs *)

Module Vocabulary.

(** A list of columns with [n] cells each. *)
Definition rectangular (n : nat) (cols : list (list cell)) : Prop :=
  Forall (fun c => List.length c = n) cols.

(** Membership up to cell equality. *)
Definition mem (k : cell) (l : list cell) : bool := existsb (cell_eqb k) l.

(** The number of cells of [l] equal to [k]. *)
Definition occ (k : cell) (l : list cell) : nat :=
  List.length (filter (cell_eqb k) l).

Definition keys {V} (d : list (cell * V)) : list cell := map fst d.

(** Keys pairwise different. *)
Fixpoint distinct (ks : list cell) : Prop :=
  match ks with
  | [] => True
  | k :: ks' => mem k ks' = false /\ distinct ks'
  end.



End Vocabulary.
Import Vocabulary.

(* Runs a handler body: case analysis on the innermost test first. *)
Ltac run_handler H :=
  repeat (simpl; try rewrite H;
          match goal with
          | |- context [match ?x with _ => _ end] =>
              lazymatch x with
              | context [match _ with _ => _ end] => fail
              | _ => destruct x eqn:?
              end
          end);
  simpl; try reflexivity; try congruence.

(** ** Statements about the rest of the code *)

Module Statements.





End Statements.

(** ** so_survey/stats.py: [mean], [median] and [mode] *)

Module StatsFunctions.

(** The argument of the three functions: a pandas Series, or a Python
    list. *)
Inductive data (A : Type) : Type :=
| OfSeries (s : Series)
| OfList (l : list A).
Arguments OfSeries {A} s.
Arguments OfList {A} l.

(** [sum(data)]: the items are added from the left, starting at 0. *)
Definition py_sum (l : list Q) : Q := fold_left Qplus l 0%Q.

(** [mean(data)] *)
Definition mean (d : data Q) : stat :=
  match d with
  | OfSeries s => Pandas.mean (s_values s)
  | OfList [] => NaN
  | OfList l => Num (Qred (py_sum l / Qnat (List.length l)))
  end.

(** [median(data)]; [sorted] is a stable ascending sort. *)
Definition median (d : data Q) : stat :=
  match d with
  | OfSeries s => Pandas.median (s_values s)
  | OfList [] => NaN
  | OfList l =>
      let sorted_data := sort_asc l in
      let n := List.length sorted_data in
      let mid := n / 2 in
      if n mod 2 =? 0 then
        Num (Qred ((nth (mid - 1) sorted_data 0%Q
                    + nth mid sorted_data 0%Q) / 2))
      else Num (Qred (nth mid sorted_data 0%Q))
  end.

(** What [mode] returns: NaN, one value, or a list of values. *)
Inductive mode_result : Type :=
| ModeNaN
| ModeValue (v : cell)
| ModeList (vs : list cell).

(** [modes[0] if len(modes) == 1 else modes] *)
Definition one_or_all (modes : list cell) : mode_result :=
  match modes with
  | [v] => ModeValue v
  | _ => ModeList modes
  end.

Section Mode.

(** [data.mode()] of a Series is left to pandas. *)
Variable series_mode : Series -> list cell.

(** [mode(data)].  The loop over the list fills the dict [counts]: a value
    met again has its count raised, a new value is added at the end. *)
Definition mode (d : data cell) : mode_result :=
  match d with
  | OfSeries s => one_or_all (series_mode s)
  | OfList [] => ModeNaN
  | OfList l =>
      let counts := count_keys l in
      let max_count := list_max (map snd counts) in
      let modes :=
        map fst (filter (fun kc => snd kc =? max_count) counts) in
      one_or_all modes
  end.

End Mode.


End StatsFunctions.

(** ** Statements about the statistics functions *)

Module StatsStatements.





End StatsStatements.

(** ** stack_survey/survey.py: the searches *)

Module SurveySearch.

(** [needle in hay] for two strings. *)
Fixpoint str_contains (needle hay : string) : bool :=
  String.prefix needle hay
  || match hay with
     | EmptyString => false
     | String _ hay' => str_contains needle hay'
     end.

(** [Survey.search_question(keyword)] *)
Definition search_question (self : Survey) (keyword : string) : list string :=
  filter (fun q => str_contains (lower keyword) (lower q)) (questions self).

(** [df.loc[labels]] for a list of row labels: for each label in turn, the
    rows that carry it; a label that no row carries is a [KeyError]. *)
Definition rows_with {A} (label : Z) (index : list Z) (l : list A) : list A :=
  select (map (Z.eqb label) index) l.

Definition loc (t : DataFrame) (labels : list Z) : result DataFrame :=
  match filter (fun lab => negb (existsb (Z.eqb lab) (df_index t))) labels with
  | [] =>
      Ok (mkDF (flat_map (fun lab => rows_with lab (df_index t) (df_index t))
                         labels)
               (map (fun c =>
                       mkColumn (col_name c) (col_dtype c)
                         (flat_map (fun lab => rows_with lab (df_index t)
                                                         (col_values c))
                                   labels))
                    (df_columns t)))
  | _ => Raise (KeyError [] (columns t))
  end.

Section Patterns.

Variable repr_float : Q -> string.

(** [re.compile(pattern).search]: the pattern is compiled, which can fail,
    into a test on strings. *)
Variable re_search : string -> result (string -> bool).

(** [Survey.search_option(question, option)]; [astype(str)] renders every
    cell, a missing one as the text [nan]. *)
Definition search_option (self : Survey) (question option : string)
  : result (list Z) :=
  if negb (contains (df self) question) then Ok []
  else
    s <- getitem (df self) question ;;
    found <- re_search option ;;
    let mask := map (fun c => found (str_of_cell repr_float c)) (s_values s) in
    Ok (select mask (s_index s)).

(** [Survey.subset_respondents(question, option)] *)
Definition subset_respondents (self : Survey) (question option : string)
  : result DataFrame :=
  idxs <- search_option self question option ;;
  loc (df self) idxs.

End Patterns.

End SurveySearch.

(** ** so_survey/repl.py: [catalog], [load], [sheets] and the whole loop *)

Module ReplLoad.

(** The [sheet_name] given to the loader: [None], an index or a name. *)
Inductive sheet : Type :=
| NoSheet
| SheetIndex (z : Z)
| SheetName (s : string).

(** The two catalog functions the handlers look up in the module namespace
    at call time. *)
Record CatalogNames : Type := mkCatalogNames {
  g_list_datasets : option (option string -> result (list string));
  g_get_dataset_path : option (string -> option string -> string)
}.

(** The module as written imports neither. *)
Definition repl_catalog_names : CatalogNames := mkCatalogNames None None.

(** The options of [load], with their defaults. *)
Record load_options : Type := mkOptions {
  o_directory : option string;
  o_sheet : sheet;
  o_head : Z
}.

Definition default_options : load_options := mkOptions None NoSheet 5.

(** The option loop of [catalog] and [sheets]: a directory flag followed
    by a word sets the directory, every other word is passed over. *)
Fixpoint parse_directory (l : list string) (directory : option string)
  : option string :=
  match l with
  | [] => directory
  | a :: rest =>
      match rest with
      | b :: rest' =>
          if str_in a ["--directory"; "-d"] then parse_directory rest' (Some b)
          else parse_directory rest directory
      | [] => directory
      end
  end.

Section Handlers.

Variable names : CatalogNames.
Variable globals : Globals.

Variable shlex_split : string -> result (list string).
Variable int_of_str : string -> result Z.
Variable query : DataFrame -> string -> result DataFrame.
Variable to_csv : DataFrame -> string -> result unit.

(** The two functions the module does import from the loader. *)
Variable load_survey : string -> sheet -> result DataFrame.
Variable list_excel_sheets : string -> result (list string).

(** The option loop of [load]: a sheet is an index when it reads as a
    number and a name otherwise; a preview length that does not read as a
    number raises. *)
Fixpoint parse_load (l : list string) (o : load_options)
  : result load_options :=
  match l with
  | [] => Ok o
  | a :: rest =>
      match rest with
      | b :: rest' =>
          if str_in a ["--directory"; "-d"] then
            parse_load rest' (mkOptions (Some b) (o_sheet o) (o_head o))
          else if str_in a ["--sheet"; "-s"] then
            match int_of_str b with
            | Ok z =>
                parse_load rest'
                  (mkOptions (o_directory o) (SheetIndex z) (o_head o))
            | Raise (ValueError _) =>
                parse_load rest'
                  (mkOptions (o_directory o) (SheetName b) (o_head o))
            | Raise e => Raise e
            end
          else if str_in a ["--head"; "-n"] then
            n <- int_of_str b ;;
            parse_load rest' (mkOptions (o_directory o) (o_sheet o) n)
          else parse_load rest o
      | [] => Ok o
      end
  end.

Definition do_catalog (self : SurveyREPL) (args : string) : outcome :=
  try_except self "Error: "
    (args_list <~ lift (if String.eqb args "" then Ok []
                        else shlex_split args) ;;
     let directory := parse_directory args_list None in
     list_datasets <~
       lift (lookup "list_datasets" (g_list_datasets names)) ;;
     datasets <~ lift (list_datasets directory) ;;
     match datasets with
     | [] => print [Lit "No datasets found."] ;;; io_ret self
     | _ =>
         print [Lit "Available datasets:"] ;;;
         emit (map (fun dataset => Echo [Lit "  - "; PStr dataset]) datasets) ;;;
         io_ret self
     end).

(** The three attributes are assigned together, after the loader has
    returned and before anything is printed; the prints that follow read
    the table column by column through its (distinct) column names. *)
Definition do_load (self : SurveyREPL) (args : string) : outcome :=
  try_except self "Error loading dataset: "
    (args_list <~ lift (shlex_split args) ;;
     match args_list with
     | [] => print [Lit "Error: Dataset name required"] ;;; io_ret self
     | dataset :: rest =>
         o <~ lift (parse_load rest default_options) ;;
         get_dataset_path <~
           lift (lookup "get_dataset_path" (g_get_dataset_path names)) ;;
         let file_path := get_dataset_path dataset (o_directory o) in
         t <~ lift (load_survey file_path (o_sheet o)) ;;
         let self' := mkREPL (Some dataset) (Some t) (o_directory o) in
         print [Lit "Loaded dataset '"; PStr dataset; Lit "' with ";
                PNat (nrows t); Lit " rows and ";
                PNat (List.length (df_columns t)); Lit " columns."] ;;;
         print [Lit "Preview:"] ;;;
         emit [FrameText (head (o_head o) t)] ;;;
         print [Lit "Columns:"] ;;;
         emit (map (fun c => Echo [Lit "  - "; PStr (col_name c); Lit " (";
                                   PDtype (col_dtype c); Lit ")"])
                   (df_columns t)) ;;;
         io_ret self'
     end).

Definition do_sheets (self : SurveyREPL) (args : string) : outcome :=
  try_except self "Error reading Excel file: "
    (args_list <~ lift (shlex_split args) ;;
     match args_list with
     | [] => print [Lit "Error: Dataset name required"] ;;; io_ret self
     | dataset :: rest =>
         let directory := parse_directory rest None in
         get_dataset_path <~
           lift (lookup "get_dataset_path" (g_get_dataset_path names)) ;;
         let file_path := get_dataset_path dataset directory in
         sheets <~ lift (list_excel_sheets file_path) ;;
         print [Lit "Sheets in "; PStr dataset; Lit ":"] ;;;
         emit (map (fun ic => Echo [Lit "  "; PNat (fst ic); Lit ": ";
                                    PStr (snd ic)])
                   (combine (seq 0 (List.length sheets)) sheets)) ;;;
         io_ret self
     end).

(** Every line the loop can read: a command on the current dataset or one
    that ends the loop, the three commands above, a line that names no
    command, an empty line.  (The built-in [help] is left out.) *)
Inductive full_command : Type :=
| Dataset (c : command)
| Cmd_catalog
| Cmd_load
| Cmd_sheets
| Cmd_unknown
| Cmd_empty.

Record full_line : Type := mkFullLine {
  fl_command : full_command;
  fl_args : string;
  fl_answer : result string
}.

(** [Cmd.onecmd] *)
Definition onecmd_full (self : SurveyREPL) (l : full_line) : outcome :=
  match fl_command l with
  | Dataset c =>
      onecmd globals shlex_split int_of_str query to_csv self
             (mkLine c (fl_args l) (fl_answer l))
  | Cmd_catalog => do_catalog self (fl_args l)
  | Cmd_load => do_load self (fl_args l)
  | Cmd_sheets => do_sheets self (fl_args l)
  | Cmd_unknown =>
      mkOutcome self [Echo [Lit "*** Unknown syntax: "; PStr (fl_args l)]]
                Continue
  | Cmd_empty => mkOutcome self [] Continue
  end.

(** [Cmd.cmdloop] *)
Fixpoint cmdloop_full (self : SurveyREPL) (lines : list full_line) : outcome :=
  match lines with
  | [] => do_EOF self ""
  | l :: lines' =>
      let r := onecmd_full self l in
      match ending r with
      | Continue =>
          let r' := cmdloop_full (session r) lines' in
          mkOutcome (session r') (printed r ++ printed r') (ending r')
      | _ => r
      end
  end.

Definition ends_loop (c : full_command) : bool :=
  match c with
  | Dataset Cmd_exit | Dataset Cmd_quit | Dataset Cmd_eof => true
  | _ => false
  end.

Definition may_replace (c : full_command) : bool :=
  match c with
  | Cmd_load | Dataset Cmd_filter | Dataset Cmd_query => true
  | _ => false
  end.

End Handlers.

End ReplLoad.

(** ** so_survey/catalog.py *)

Module Catalog.

(** [s.endswith(suffix)] *)
Fixpoint endswith (s suffix : string) : bool :=
  String.eqb s suffix
  || match s with
     | EmptyString => false
     | String _ s' => endswith s' suffix
     end.

(** [name.lower().endswith(('.xlsx', '.xls'))], the test that the catalog
    and the loader both apply. *)
Definition is_excel (name : string) : bool :=
  endswith (lower name) ".xlsx" || endswith (lower name) ".xls".

(** One step of [os.path.join] on POSIX paths: a component that starts
    with the separator replaces what came before. *)
Definition join_step (path b : string) : string :=
  if String.prefix "/" b then b
  else if String.eqb path "" || endswith path "/" then (path ++ b)%string
  else (path ++ "/" ++ b)%string.

(** [os.path.join(a, *p)] *)
Definition join (a : string) (p : list string) : string :=
  fold_left join_step p a.

(** [s.rfind(c)]: the highest index of the character, or -1. *)
Fixpoint rfind (c : ascii) (s : string) : Z :=
  match s with
  | EmptyString => (-1)%Z
  | String a s' =>
      let r := rfind c s' in
      if (0 <=? r)%Z then (r + 1)%Z
      else if Ascii.eqb a c then 0%Z else (-1)%Z
  end.

(** [s[i:j]] for indices within the string. *)
Definition slice (i j : Z) (s : string) : string :=
  substring (Z.to_nat i) (Z.to_nat (j - i)) s.

Fixpoint only_dots (s : string) : bool :=
  match s with
  | EmptyString => true
  | String a s' => Ascii.eqb a "." && only_dots s'
  end.

(** [os.path.splitext(p)]: the extension starts at the last dot of the
    last component, unless only dots come before it in that component. *)
Definition splitext (p : string) : string * string :=
  let sepIndex := rfind "/" p in
  let dotIndex := rfind "." p in
  if (sepIndex <? dotIndex)%Z then
    if only_dots (slice (sepIndex + 1) dotIndex p) then (p, "")
    else (slice 0 dotIndex p, slice dotIndex (Z.of_nat (String.length p)) p)
  else (p, "").

Section Files.

(** The directory of the module file, as an absolute path, and the two
    questions asked of the file system. *)
Variable module_dir : string.
Variable path_exists : string -> bool.
Variable listdir : string -> result (list string).

(** The default data directory: [data] beside the package directory. *)
Definition default_directory : string := join module_dir [".."; "data"].

Definition list_datasets (directory : option string)
  : result (list string) :=
  let directory := match directory with
                   | None => default_directory
                   | Some d => d
                   end in
  if negb (path_exists directory) then Ok []
  else
    files <- listdir directory ;;
    Ok (map (fun file => fst (splitext file)) (filter is_excel files)).

Definition get_dataset_path (dataset_name : string)
           (directory : option string) : string :=
  let directory := match directory with
                   | None => default_directory
                   | Some d => d
                   end in
  let dataset_name := if negb (is_excel dataset_name)
                      then (dataset_name ++ ".xlsx")%string
                      else dataset_name in
  join directory [dataset_name].

End Files.

End Catalog.

(** ** so_survey/loader.py *)

Module Loader.

Import ReplLoad.

(** What [pandas.read_excel] returns: one table, or every sheet by name
    (when no sheet is asked for). *)
Inductive excel : Type :=
| Frame (t : DataFrame)
| Sheets (d : list (string * DataFrame)).

(** What the [RuntimeError] of the loader reports: an exception of the
    library, the missing first sheet of an empty workbook, or the
    unexpected dictionary. *)
Inductive cause : Type :=
| Library (e : exn)
| IndexError
| UnexpectedDict (sheet_name : sheet).

(** The exceptions that leave the loader. *)
Inductive error : Type :=
| NotExcel (file_path : string)
| FileNotFoundError (file_path : string)
| RuntimeError (file_path : string) (c : cause)
| Uncaught (e : exn).

(** The lines the loader prints. *)
Inductive notice : Type :=
| LoadedFile (basename : string)
| SheetFirst (name : string)
| SheetNamed (name : string)
| SheetIndexed (index : Z)
| SheetDefault.

(** [os.path.basename] on POSIX paths *)
Definition basename (p : string) : string :=
  Catalog.slice (Catalog.rfind "/" p + 1) (Z.of_nat (String.length p)) p.

(** [except Exception as e: raise RuntimeError(...)] *)
Definition reraise (file_path : string) (e : exn) : error :=
  if is_Exception e then RuntimeError file_path (Library e) else Uncaught e.

Section Files.

Variable path_exists : string -> bool.
Variable read_excel : string -> sheet -> result excel.
Variable sheet_names : string -> result (list string).

Definition load_survey (file_path : string) (sheet_name : sheet)
  : list notice * (error + DataFrame) :=
  if negb (Catalog.is_excel file_path) then ([], inl (NotExcel file_path))
  else if negb (path_exists file_path) then
    ([], inl (FileNotFoundError file_path))
  else
    match read_excel file_path sheet_name with
    | Raise e => ([], inl (reraise file_path e))
    | Ok (Sheets d) =>
        match sheet_name with
        | NoSheet =>
            match d with
            | [] => ([], inl (RuntimeError file_path IndexError))
            | (first_sheet_name, df) :: _ =>
                ([LoadedFile (basename file_path);
                  SheetFirst first_sheet_name], inr df)
            end
        | _ => ([], inl (RuntimeError file_path (UnexpectedDict sheet_name)))
        end
    | Ok (Frame df) =>
        ([LoadedFile (basename file_path);
          match sheet_name with
          | SheetName s => SheetNamed s
          | SheetIndex z => SheetIndexed z
          | NoSheet => SheetDefault
          end], inr df)
    end.

Definition list_excel_sheets (file_path : string) : error + list string :=
  if negb (Catalog.is_excel file_path) then inl (NotExcel file_path)
  else if negb (path_exists file_path) then inl (FileNotFoundError file_path)
  else
    match sheet_names file_path with
    | Raise e => inl (reraise file_path e)
    | Ok names => inr names
    end.

End Files.

End Loader.

(** Stand-ins for the file system and the workbook of a session: one
    directory that holds a workbook of the docstring table, an older
    workbook and a text file. *)

Module SessionSamples.

Definition module_dir : string := "/pkg/so_survey".

Definition present (p : string) : bool := true.

Definition files (d : string) : result (list string) :=
  Ok ["people.xlsx"; "old.xls"; "notes.txt"].

Definition reads_people (p : string) (s : ReplLoad.sheet)
  : result DataFrame := Ok Samples.people.

Definition one_sheet (p : string) : result (list string) := Ok ["Sheet1"].

(** The module namespace had the two catalog functions been imported. *)
Definition with_catalog : ReplLoad.CatalogNames :=
  ReplLoad.mkCatalogNames
    (Some (Catalog.list_datasets module_dir present files))
    (Some (Catalog.get_dataset_path module_dir)).

End SessionSamples.

(** Words for the statements about file names. *)

Module CatalogStatements.

Fixpoint occurs (c : ascii) (s : string) : bool :=
  match s with
  | EmptyString => false
  | String a s' => Ascii.eqb a c || occurs c s'
  end.

(** A file name without its extension: no separator in it, and not made
    of dots only (so not empty). *)
Definition plain_stem (s : string) : bool :=
  negb (occurs "/" s) && negb (Catalog.only_dots s).

(** An extension: a dot followed by characters other than dots and
    separators. *)
Definition is_extension (ext : string) : bool :=
  match ext with
  | String a e => Ascii.eqb a "." && negb (occurs "." e) && negb (occurs "/" e)
  | EmptyString => false
  end.

End CatalogStatements.

(** ** so_survey/cli.py: the [subset] command *)

Module Cli.

Import ReplLoad.

(** What stops a command: an error of the loader, or an exception of the
    interpreter or of pandas. *)
Inductive failure : Type :=
| FromLoader (e : Loader.error)
| FromPython (e : exn).

(** What a command prints and writes, in order: the lines of the loader,
    the advisory of the filter, the CSV file, its own lines, and the error
    line. *)
Inductive event : Type :=
| Noted (n : Loader.notice)
| Warned (d : diagnostic)
| Saved (t : DataFrame) (path : string)
| Said (line : list piece)
| Complained (prefix : string) (f : failure).

(** How a command ends: it returned, it called [sys.exit], or an
    exception that is not an [Exception] left it. *)
Inductive exit_status : Type :=
| Returned
| Exited (code : Z)
| Escaped (e : exn).

Record run : Type := mkRun {
  events : list event;
  status : exit_status
}.

(** [isinstance(e, Exception)] for what the loader raises. *)
Definition caught (f : failure) : option exn :=
  match f with
  | FromLoader (Loader.Uncaught e) | FromPython e =>
      if is_Exception e then None else Some e
  | FromLoader _ => None
  end.

(** [except Exception as e: click.echo(prefix + str(e), err=True);
    sys.exit(1)] *)
Definition handled (prefix : string) (sofar : list event) (f : failure)
  : run :=
  match caught f with
  | None => mkRun (sofar ++ [Complained prefix f]) (Exited 1)
  | Some e => mkRun sofar (Escaped e)
  end.

Section Commands.

Variable module_dir : string.
Variable path_exists : string -> bool.
Variable read_excel : string -> sheet -> result Loader.excel.
Variable int_of_str : string -> result Z.
Variable to_csv : DataFrame -> string -> result unit.

(** The sheet option: absent or empty is no sheet, a number is an index,
    anything else a name. *)
Definition sheet_of (sheet : option string) : result ReplLoad.sheet :=
  match sheet with
  | None => Ok NoSheet
  | Some s =>
      if String.eqb s "" then Ok NoSheet
      else
        match int_of_str s with
        | Ok z => Ok (SheetIndex z)
        | Raise (ValueError _) => Ok (SheetName s)
        | Raise e => Raise e
        end
  end.

Definition subset_command (dataset column : string) (values : list string)
           (output : string) (directory sheet : option string) : run :=
  let file_path := Catalog.get_dataset_path module_dir dataset directory in
  let prefix := "Error filtering dataset: " in
  match sheet_of sheet with
  | Raise e => handled prefix [] (FromPython e)
  | Ok sheet_name =>
      match Loader.load_survey path_exists read_excel file_path sheet_name
      with
      | (notices, inl e) => handled prefix (map Noted notices) (FromLoader e)
      | (notices, inr df) =>
          match filter_by_column df column (map CStr values) with
          | Raise e => handled prefix (map Noted notices) (FromPython e)
          | Ok (filtered_df, advisory) =>
              let sofar := map Noted notices ++ map Warned advisory in
              match to_csv filtered_df output with
              | Raise e => handled prefix sofar (FromPython e)
              | Ok _ =>
                  mkRun
                    (sofar
                     ++ [Saved filtered_df output;
                         Said [Lit "Filtered dataset saved to ";
                               PStr output];
                         Said [Lit "Original size: "; PNat (nrows df);
                               Lit " rows"];
                         Said [Lit "Filtered size: ";
                               PNat (nrows filtered_df); Lit " rows"]])
                    Returned
              end
          end
      end
  end.

End Commands.

(** The [Saved] events of a run. *)
Definition saved (r : run) : list (DataFrame * string) :=
  flat_map (fun e => match e with
                     | Saved t path => [(t, path)]
                     | _ => []
                     end) (events r).

End Cli.

(** ** stack_survey/cli.py *)

Module SurveyCli.

Import SurveySearch.

(** [s.split(sep, maxsplit)] for a one-character separator: at most
    [maxsplit] cuts, from the left; the rest of the string is the last
    item. *)
Fixpoint split_max (sep : ascii) (s : string) (maxsplit : nat)
  : list string :=
  match s with
  | EmptyString => [EmptyString]
  | String c s' =>
      match maxsplit with
      | 0 => [s]
      | S m =>
          if Ascii.eqb c sep then EmptyString :: split_max sep s' m
          else
            match split_max sep s' maxsplit with
            | [] => [String c EmptyString]
            | w :: ws => String c w :: ws
            end
      end
  end.

(** [s.split()]: the words between runs of whitespace. *)
Fixpoint split_ws (s : string) : list string :=
  match s with
  | EmptyString => []
  | String c s' =>
      if isspace c then split_ws s'
      else
        match s' with
        | EmptyString => [String c EmptyString]
        | String d _ =>
            if isspace d then String c EmptyString :: split_ws s'
            else
              match split_ws s' with
              | [] => [String c EmptyString]
              | w :: ws => String c w :: ws
              end
        end
  end.

Definition upper_ascii (c : ascii) : ascii :=
  let n := nat_of_ascii c in
  if (97 <=? n) && (n <=? 122) then ascii_of_nat (n - 32) else c.

(** [s.upper()] on ASCII text. *)
Fixpoint upper (s : string) : string :=
  match s with
  | EmptyString => EmptyString
  | String c s' => String (upper_ascii c) (upper s')
  end.

(** What reaches the terminal: the prompt, a fixed line, the summary of
    the commands, and the results of the commands. *)
Inductive shown : Type :=
| Asked (prompt : string)
| Text (line : string)
| Summary
| Numbered (idx : nat) (q : string)
| Question (q : string)
| Indices (idxs : list Z)
| Table (t : DataFrame)
| Share (opt : cell) (share : Q).

(** How [main] ends: it returned, it called [sys.exit], or an exception
    left it. *)
Inductive ending : Type :=
| Returned
| Exited (code : Z)
| Uncaught (e : exn).

Section Main.

Variable repr_float : Q -> string.
Variable re_search : string -> result (string -> bool).
Variable read_excel : string -> result DataFrame.

(** [Survey(xlsx_path)] *)
Definition new_survey (xlsx_path : string) : result Survey :=
  t <- read_excel xlsx_path ;;
  Ok (mkSurvey xlsx_path t (columns t)).

(** [Survey.display_structure()] *)
Definition display_structure (self : Survey) : list shown :=
  map (fun iq => Numbered (fst iq) (snd iq))
      (combine (seq 1 (List.length (questions self))) (questions self)).

(** One turn of the loop, for a command other than [exit] and [quit]:
    what is printed, and the exception that leaves the loop if there is
    one.  Unpacking a list of the wrong length is a [ValueError]. *)
Definition step (survey : Survey) (cmd : string)
  : list shown * result unit :=
  if String.eqb cmd "help" then ([Summary], Ok tt)
  else if String.eqb cmd "structure" then (display_structure survey, Ok tt)
  else if String.prefix "searchq " cmd then
    match split_max " " cmd 1 with
    | [_; keyword] =>
        (map Question (search_question survey keyword), Ok tt)
    | _ => ([], Raise (ValueError "unpack"))
    end
  else if String.prefix "searcho " cmd then
    let parts := split_max " " cmd 2 in
    if List.length parts <? 3 then
      ([Text "Usage: searcho <question> <option>"], Ok tt)
    else
      match parts with
      | [_; q; opt] =>
          match search_option repr_float re_search survey q opt with
          | Ok idxs => ([Indices idxs], Ok tt)
          | Raise e => ([], Raise e)
          end
      | _ => ([], Raise (ValueError "unpack"))
      end
  else if String.prefix "subset " cmd then
    let parts := split_max " " cmd 2 in
    if List.length parts <? 3 then
      ([Text "Usage: subset <question> <option>"], Ok tt)
    else
      match parts with
      | [_; q; opt] =>
          match subset_respondents repr_float re_search survey q opt with
          | Ok t => ([Table t], Ok tt)
          | Raise e => ([], Raise e)
          end
      | _ => ([], Raise (ValueError "unpack"))
      end
  else if String.prefix "dist " cmd then
    let parts := split_ws cmd in
    if List.length parts <? 2 then
      ([Text "Usage: dist <question> [MC]"], Ok tt)
    else
      let q := nth 1 parts "" in
      let mc := (2 <? List.length parts)
                && String.eqb (upper (nth 2 parts "")) "MC" in
      match answer_distribution repr_float survey q mc with
      | Ok dist => (map (fun os => Share (fst os) (snd os)) dist, Ok tt)
      | Raise e => ([], Raise e)
      end
  else ([Text "Unknown command. Type 'help' for commands."], Ok tt).

(** [while True: cmd = input("survey> ").strip() ...] over the lines the
    user enters; at the end of the input [input] raises [EOFError]. *)
Fixpoint loop (survey : Survey) (lines : list string)
  : list shown * ending :=
  match lines with
  | [] => ([Asked "survey> "], Uncaught EOFError)
  | l :: lines' =>
      let cmd := strip l in
      if str_in cmd ["exit"; "quit"] then ([Asked "survey> "], Returned)
      else
        match step survey cmd with
        | (o, Ok _) =>
            let (o', e) := loop survey lines' in
            (Asked "survey> " :: o ++ o', e)
        | (o, Raise e) => (Asked "survey> " :: o, Uncaught e)
        end
  end.

(** [main()], with [sys.argv] and the lines of the input. *)
Definition main (argv : list string) (lines : list string)
  : list shown * ending :=
  match argv with
  | _ :: xlsx_path :: _ =>
      match new_survey xlsx_path with
      | Raise e => ([], Uncaught e)
      | Ok survey =>
          let (o, e) := loop survey lines in
          (Text "Stack Overflow Survey CLI. Type 'help' for commands." :: o,
           e)
      end
  | _ =>
      ([Text "Usage: python -m stack_survey.cli <survey_xlsx>"], Exited 1)
  end.

End Main.

End SurveyCli.

(** Words for the statements about command lines. *)

Module SurveyCliStatements.

Fixpoint all_space (s : string) : bool :=
  match s with
  | EmptyString => true
  | String c s' => isspace c && all_space s'
  end.

Fixpoint has_space (s : string) : bool :=
  match s with
  | EmptyString => false
  | String c s' => isspace c || has_space s'
  end.

(** The third word of a [dist] line, when it is [MC] in any letter
    case. *)
Definition asks_multiple_choice (rest : list string) : bool :=
  match rest with
  | w :: _ => String.eqb (SurveyCli.upper w) "MC"
  | [] => false
  end.

End SurveyCliStatements.

(** Stand-ins for a run of the survey command line: a survey of an older
    kind, whose question is a phrase; patterns without special characters,
    which match as substrings; a workbook that holds the test table. *)

Module SurveySamples.

Definition worded : Survey :=
  mkSurvey "survey_2015.xlsx"
    (mkDF [0; 1]%Z
       [ mkColumn "Main language" Object [CStr "C"; CStr "Go"] ])
    ["Main language"].

Definition literal (pattern : string) : result (string -> bool) :=
  Ok (SurveySearch.str_contains pattern).

Definition reads_answers (xlsx_path : string) : result DataFrame :=
  Ok Samples.answers.

End SurveySamples.

(** * Properties *)

(** ** Row selection *)

Lemma select_map {A B} (f : A -> B) mask (l : list A) :
  select mask (map f l) = map f (select mask l).
Proof.
  revert l; induction mask as [|b mask IH]; intros [|x l]; simpl; auto.
  destruct b; simpl; now rewrite IH.
Qed.

Lemma select_map_self {A} (p : A -> bool) (l : list A) :
  select (map p l) l = filter p l.
Proof.
  induction l as [|x l IH]; simpl; auto.
  destruct (p x); now rewrite IH.
Qed.

Lemma rectangular_tl n cols :
  rectangular (S n) cols -> rectangular n (map (fun c => tl c) cols).
Proof.
  unfold rectangular; intros H; induction H as [|c cols Hc _ IH]; simpl;
    constructor; auto.
  destruct c; simpl in *; [discriminate | congruence].
Qed.

(** Masking every column and then reading rows is masking the rows. *)
Lemma rows_of_select mask : forall idx cols,
  rectangular (List.length idx) cols ->
  rows_of (select mask idx) (map (select mask) cols)
  = select mask (rows_of idx cols).
Proof.
  induction mask as [|b mask IH]; intros idx cols Hrect.
  - destruct idx; reflexivity.
  - destruct idx as [|i idx]; [reflexivity|].
    assert (Hhd : map (fun c => hd CNaN c) (map (select (true :: mask)) cols)
                  = map (fun c => hd CNaN c) cols).
    { rewrite map_map. apply map_ext_in. intros c Hc.
      unfold rectangular in Hrect. rewrite Forall_forall in Hrect.
      specialize (Hrect c Hc). destruct c; [discriminate | reflexivity]. }
    assert (Htl1 : map (fun c => tl c) (map (select (true :: mask)) cols)
                   = map (select mask) (map (fun c => tl c) cols)).
    { rewrite !map_map. apply map_ext_in. intros c Hc.
      unfold rectangular in Hrect. rewrite Forall_forall in Hrect.
      specialize (Hrect c Hc). destruct c; [discriminate | reflexivity]. }
    assert (Htl0 : map (select (false :: mask)) cols
                   = map (select mask) (map (fun c => tl c) cols)).
    { rewrite map_map. apply map_ext_in. intros c Hc.
      unfold rectangular in Hrect. rewrite Forall_forall in Hrect.
      specialize (Hrect c Hc). destruct c; [discriminate | reflexivity]. }
    destruct b.
    + change (rows_of (i :: select mask idx) (map (select (true :: mask)) cols)
              = (i, map (fun c => hd CNaN c) cols)
                  :: select mask (rows_of idx (map (fun c => tl c) cols))).
      cbn [rows_of]. rewrite Hhd, Htl1. f_equal.
      apply IH. now apply rectangular_tl.
    + change (rows_of (select mask idx) (map (select (false :: mask)) cols)
              = select mask (rows_of idx (map (fun c => tl c) cols))).
      rewrite Htl0. apply IH. now apply rectangular_tl.
Qed.

(** Reading position [k] of every row gives back the [k]-th column. *)
Lemma rows_of_nth k : forall idx cols,
  rectangular (List.length idx) cols ->
  k < List.length cols ->
  map (fun r => nth k (snd r) CNaN) (rows_of idx cols) = nth k cols [].
Proof.
  induction idx as [|i idx IH]; intros cols Hrect Hk; simpl.
  - unfold rectangular in Hrect. rewrite Forall_forall in Hrect.
    specialize (Hrect (nth k cols []) (nth_In _ _ Hk)).
    destruct (nth k cols []); [reflexivity | discriminate].
  - rewrite IH; [| now apply rectangular_tl | now rewrite length_map].
    rewrite (map_nth (fun c : list cell => tl c) cols [] k : 
               nth k (map (fun c => tl c) cols) [] = tl (nth k cols [])).
    rewrite (map_nth (fun c : list cell => hd CNaN c) cols [] k :
               nth k (map (fun c => hd CNaN c) cols) CNaN
               = hd CNaN (nth k cols [])).
    unfold rectangular in Hrect. rewrite Forall_forall in Hrect.
    specialize (Hrect (nth k cols []) (nth_In _ _ Hk)).
    destruct (nth k cols []); [discriminate | reflexivity].
Qed.

Lemma find_column_position df column c :
  find_column df column = Some c ->
  exists k, position column (columns df) = Some k
            /\ k < List.length (df_columns df)
            /\ nth k (map col_values (df_columns df)) [] = col_values c.
Proof.
  unfold find_column, columns.
  induction (df_columns df) as [|c0 cs IH]; simpl; [discriminate|].
  destruct (String.eqb column (col_name c0)).
  - intros [= <-]. exists 0. repeat split; auto. lia.
  - intros H. destruct (IH H) as (k & Hp & Hk & Hn).
    exists (S k). rewrite Hp. repeat split; auto. lia.
Qed.

Lemma contains_find_column df column :
  contains df column = true -> exists c, find_column df column = Some c.
Proof.
  unfold contains, str_in, find_column, columns.
  induction (df_columns df) as [|c0 cs IH]; simpl; [discriminate|].
  destruct (String.eqb column (col_name c0)); eauto.
Qed.

Lemma wf_rectangular df :
  wf df ->
  rectangular (List.length (df_index df)) (map col_values (df_columns df)).
Proof.
  intros [_ [H _]]. unfold rectangular. rewrite Forall_map. exact H.
Qed.

(** The rows of a masked table are the masked rows of the table. *)
Lemma rows_getitem_mask df mask :
  wf df -> rows (getitem_mask df mask) = select mask (rows df).
Proof.
  intros Hwf. unfold rows, getitem_mask; simpl.
  rewrite map_map; simpl. rewrite <- map_map.
  apply rows_of_select. now apply wf_rectangular.
Qed.

(** The cells of a column are the cells its rows hold under its name. *)
Lemma column_values_rows df column c :
  wf df -> find_column df column = Some c ->
  col_values c = map (row_cell df column) (rows df).
Proof.
  intros Hwf Hf.
  destruct (find_column_position _ _ _ Hf) as (k & Hp & Hk & Hn).
  unfold row_cell, rows. rewrite Hp, <- Hn.
  symmetry. apply rows_of_nth; [now apply wf_rectangular | now rewrite length_map].
Qed.

Lemma wf_people : wf Samples.people.
Proof.
  split; [|split].
  - repeat constructor; simpl; intuition discriminate.
  - repeat constructor.
  - simpl. repeat apply Forall_cons; try apply Forall_nil; simpl; intros H;
      try discriminate H; repeat constructor.
Qed.

(** ** The value filter *)




(** ** The range filter *)

Lemma getitem_contains t column s :
  getitem t column = Ok s -> contains t column = true.
Proof.
  unfold getitem. destruct (find_column t column) as [c|] eqn:Hf; [|discriminate].
  intros _. revert Hf. unfold find_column, contains, str_in, columns.
  induction (df_columns t) as [|c0 cs IH]; simpl; [discriminate|].
  destruct (String.eqb column (col_name c0)); simpl; auto.
Qed.








(** ** Counting values *)

(** Equality of cells is an equivalence. *)
Lemma cell_eqb_refl a : cell_eqb a a = true.
Proof.
  destruct a; simpl; auto using String.eqb_refl;
    apply Qeq_bool_iff; reflexivity.
Qed.

Lemma cell_eqb_sym a b : cell_eqb a b = cell_eqb b a.
Proof.
  destruct a, b; simpl; auto using String.eqb_sym;
    apply eq_true_iff_eq; rewrite !Qeq_bool_iff; split; intros H;
    now symmetry.
Qed.

Lemma cell_eqb_trans a b c :
  cell_eqb a b = true -> cell_eqb b c = true -> cell_eqb a c = true.
Proof.
  destruct a, b, c; simpl; try discriminate; auto;
    try (rewrite !Qeq_bool_iff; intros H1 H2; now rewrite H1);
    rewrite !String.eqb_eq; congruence.
Qed.

Lemma cell_eqb_compat a b c :
  cell_eqb a b = true -> cell_eqb a c = cell_eqb b c.
Proof.
  intros H. apply eq_true_iff_eq. split; intros H'.
  - apply cell_eqb_trans with a; [now rewrite cell_eqb_sym | assumption].
  - now apply cell_eqb_trans with b.
Qed.

Lemma mem_compat a b l : cell_eqb a b = true -> mem a l = mem b l.
Proof.
  intros H. unfold mem. induction l as [|x l IH]; simpl; auto.
  now rewrite IH, (cell_eqb_compat _ _ _ H).
Qed.

Lemma mem_app k l1 l2 : mem k (l1 ++ l2) = mem k l1 || mem k l2.
Proof. apply existsb_app. Qed.

Lemma mem_false_In k l x : mem k l = false -> In x l -> cell_eqb k x = false.
Proof.
  unfold mem. intros H Hin.
  destruct (cell_eqb k x) eqn:E; auto.
  assert (existsb (cell_eqb k) l = true) by (apply existsb_exists; eauto).
  congruence.
Qed.

Lemma mem_true_In k l : mem k l = true -> exists x, In x l /\ cell_eqb k x = true.
Proof. apply existsb_exists. Qed.

Lemma distinct_app_one ks k :
  distinct ks -> mem k ks = false -> distinct (ks ++ [k]).
Proof.
  induction ks as [|a ks IH]; simpl; intros Hd Hk.
  - auto.
  - destruct Hd as [Ha Hd]. apply orb_false_elim in Hk as [Hka Hk].
    split; [| now apply IH].
    rewrite mem_app, Ha. simpl. now rewrite cell_eqb_sym, Hka.
Qed.

(** *** One counting step *)

Lemma keys_bump k acc :
  keys (bump k acc) = if mem k (keys acc) then keys acc else keys acc ++ [k].
Proof.
  induction acc as [|[k' n] acc IH]; simpl; auto.
  destruct (cell_eqb k k'); simpl; auto.
  rewrite IH. now destruct (mem k (keys acc)).
Qed.

Lemma bump_absent k acc :
  mem k (keys acc) = false -> bump k acc = acc ++ [(k, 1)].
Proof.
  induction acc as [|[k' n] acc IH]; simpl; auto.
  intros H. apply orb_false_elim in H as [H1 H2].
  rewrite H1. now rewrite IH.
Qed.

Lemma bump_present k acc :
  distinct (keys acc) -> mem k (keys acc) = true ->
  bump k acc
  = map (fun kc => (fst kc, snd kc + if cell_eqb k (fst kc) then 1 else 0)) acc.
Proof.
  induction acc as [|[k' n] acc IH]; simpl; [discriminate|].
  intros [Hk' Hd] H.
  destruct (cell_eqb k k') eqn:E; simpl.
  - rewrite Nat.add_1_r. f_equal.
    rewrite <- (map_id acc) at 1. apply map_ext_in. intros [k2 n2] Hin; simpl.
    assert (cell_eqb k k2 = false) as ->.
    { rewrite (cell_eqb_compat _ _ _ E).
      apply mem_false_In with (keys acc); auto.
      now apply (in_map fst acc (k2, n2)). }
    now rewrite Nat.add_0_r.
  - rewrite Nat.add_0_r. f_equal. now apply IH.
Qed.

(** *** Distinct values in order of first appearance *)

Lemma unique_acc_seen s1 s2 l :
  (forall y, mem y s1 = mem y s2) -> unique_acc s1 l = unique_acc s2 l.
Proof.
  revert s1 s2. induction l as [|x l IH]; intros s1 s2 H; simpl; auto.
  fold (mem x s1) (mem x s2). rewrite (H x).
  destruct (mem x s2); [now apply IH|].
  f_equal. apply IH. intros y. simpl. now rewrite H.
Qed.

Lemma unique_acc_fresh seen l x :
  In x (unique_acc seen l) -> mem x seen = false /\ In x l.
Proof.
  revert seen. induction l as [|y l IH]; intros seen; simpl; [easy|].
  fold (mem y seen). destruct (mem y seen) eqn:E.
  - intros H. destruct (IH _ H). auto.
  - intros [<- | H]; [auto|].
    destruct (IH _ H) as [H1 H2]. simpl in H1.
    apply orb_false_elim in H1 as [_ H1]. auto.
Qed.

Lemma occ_cons k x l :
  occ k (x :: l) = (if cell_eqb k x then 1 else 0) + occ k l.
Proof. unfold occ; simpl. now destruct (cell_eqb k x). Qed.

(** The counting pass started from a table of counts: the counts present
    grow by the occurrences met, the new keys follow in order of first
    appearance with their number of occurrences. *)
Lemma fold_bump_spec l : forall acc,
  distinct (keys acc) ->
  fold_left (fun acc x => bump x acc) l acc
  = map (fun kc => (fst kc, snd kc + occ (fst kc) l)) acc
    ++ map (fun k => (k, occ k l)) (unique_acc (keys acc) l).
Proof.
  induction l as [|x l IH]; intros acc Hd; simpl.
  - rewrite app_nil_r. rewrite <- (map_id acc) at 1.
    apply map_ext. intros [k n]; simpl. unfold occ; simpl. now rewrite Nat.add_0_r.
  - fold (mem x (keys acc)). destruct (mem x (keys acc)) eqn:E.
    + rewrite IH by (rewrite keys_bump, E; assumption).
      rewrite keys_bump, E. rewrite (bump_present _ _ Hd E), map_map. simpl.
      f_equal.
      * apply map_ext. intros [k n]; simpl.
        rewrite occ_cons, (cell_eqb_sym k x). f_equal.
        symmetry. apply Nat.add_assoc.
      * apply map_ext_in. intros k Hk. rewrite occ_cons.
        destruct (unique_acc_fresh _ _ _ Hk) as [Hk1 _].
        destruct (cell_eqb k x) eqn:Ekx; [|reflexivity].
        rewrite (mem_compat _ _ _ Ekx) in Hk1. congruence.
    + assert (Hd' : distinct (keys (bump x acc))).
      { rewrite keys_bump, E. now apply distinct_app_one. }
      rewrite IH by assumption.
      rewrite keys_bump, E. rewrite (bump_absent _ _ E), map_app. simpl.
      rewrite <- app_assoc. simpl. f_equal.
      * apply map_ext_in. intros [k n] Hk; simpl. rewrite occ_cons.
        assert (cell_eqb k x = false) as ->; [|reflexivity].
        rewrite cell_eqb_sym. apply mem_false_In with (keys acc); auto.
        now apply (in_map fst acc (k, n)).
      * rewrite occ_cons, cell_eqb_refl. f_equal.
        rewrite (unique_acc_seen (keys acc ++ [x]) (x :: keys acc)).
        2:{ intros y. rewrite mem_app. simpl. 
            destruct (cell_eqb y x), (mem y (keys acc)); reflexivity. }
        apply map_ext_in. intros k Hk. rewrite occ_cons.
        destruct (unique_acc_fresh _ _ _ Hk) as [Hk1 _]. simpl in Hk1.
        apply orb_false_elim in Hk1 as [-> _]. reflexivity.
Qed.

(** The counting pass: the distinct values in order of first appearance,
    each with its number of occurrences. *)
Lemma count_keys_spec l :
  count_keys l = map (fun k => (k, occ k l)) (unique l).
Proof. unfold count_keys, unique. now rewrite fold_bump_spec. Qed.



Lemma mem_false_intro k l :
  (forall x, In x l -> cell_eqb k x = false) -> mem k l = false.
Proof.
  intros H. destruct (mem k l) eqn:E; auto.
  destruct (mem_true_In _ _ E) as [x [Hx Hkx]]. rewrite (H x Hx) in Hkx.
  discriminate.
Qed.

Lemma unique_acc_not_seen seen l x a :
  mem x seen = true -> In a (unique_acc seen l) -> cell_eqb a x = false.
Proof.
  intros Hx Ha. destruct (unique_acc_fresh _ _ _ Ha) as [Hs _].
  destruct (cell_eqb a x) eqn:E; auto.
  rewrite (mem_compat _ _ _ E) in Hs. congruence.
Qed.

Lemma unique_acc_distinct l : forall seen, distinct (unique_acc seen l).
Proof.
  induction l as [|x l IH]; intros seen; simpl; auto.
  fold (mem x seen). destruct (mem x seen); simpl; auto.
  split; auto. apply mem_false_intro. intros b Hb.
  rewrite cell_eqb_sym. apply unique_acc_not_seen with (x :: seen) l; auto.
  simpl. now rewrite cell_eqb_refl.
Qed.


(** *** Sorting the counts *)

Lemma insert_by_count_perm x l : Permutation (insert_by_count x l) (x :: l).
Proof.
  induction l as [|y l IH]; simpl; auto.
  destruct (snd x <=? snd y); auto.
  rewrite IH. apply perm_swap.
Qed.

Lemma sort_by_count_perm l : Permutation (sort_by_count l) l.
Proof.
  induction l as [|x l IH]; simpl; auto.
  rewrite insert_by_count_perm. now constructor.
Qed.

Lemma sort_values_desc_perm l : Permutation (sort_values_desc l) l.
Proof.
  unfold sort_values_desc.
  rewrite <- Permutation_rev, sort_by_count_perm. symmetry.
  apply Permutation_rev.
Qed.

Lemma sort_values_desc_In l y : In y (sort_values_desc l) <-> In y l.
Proof.
  split; apply Permutation_in;
    [apply sort_values_desc_perm | symmetry; apply sort_values_desc_perm].
Qed.






Lemma mem_perm k l l' : Permutation l l' -> mem k l = mem k l'.
Proof.
  unfold mem. induction 1; simpl; try congruence.
  now destruct (cell_eqb k x), (cell_eqb k y).
Qed.

Lemma distinct_perm l l' : Permutation l l' -> distinct l -> distinct l'.
Proof.
  induction 1 as [|x l l' Hp IH|x y l|l l' l'' _ IH1 _ IH2]; simpl; auto.
  - intros [Hx Hd]. rewrite <- (mem_perm x _ _ Hp). auto.
  - intros [Hy [Hx Hd]]. apply orb_false_elim in Hy as [Hyx Hy].
    rewrite cell_eqb_sym, Hyx, Hx. auto.
Qed.

Lemma sort_values_desc_distinct l :
  distinct (keys l) -> distinct (keys (sort_values_desc l)).
Proof.
  apply distinct_perm. unfold keys. apply Permutation_map. symmetry.
  apply sort_values_desc_perm.
Qed.

Lemma keys_count_keys l : keys (count_keys l) = unique l.
Proof.
  rewrite count_keys_spec. unfold keys. rewrite map_map. simpl. apply map_id.
Qed.

Lemma value_counts_distinct l : distinct (keys (value_counts l)).
Proof.
  apply sort_values_desc_distinct. rewrite keys_count_keys.
  apply unique_acc_distinct.
Qed.

(** An entry of [value_counts]: a value of the column that is not missing,
    with the number of its occurrences, which is at least one. *)
Lemma value_counts_In l k n :
  In (k, n) (value_counts l) <->
  In k (unique (dropna l)) /\ n = occ k (dropna l).
Proof.
  unfold value_counts. rewrite sort_values_desc_In, count_keys_spec, in_map_iff.
  split.
  - intros [k' [[= -> <-] H]]. auto.
  - intros [H ->]. eauto.
Qed.

Lemma occ_pos k l : In k l -> 1 <= occ k l.
Proof.
  induction l as [|x l IH]; simpl; [easy|].
  rewrite occ_cons. intros [-> | H].
  - rewrite cell_eqb_refl. lia.
  - specialize (IH H). lia.
Qed.

Lemma value_counts_pos l k n : In (k, n) (value_counts l) -> 1 <= n.
Proof.
  rewrite value_counts_In. intros [H ->]. apply occ_pos.
  now apply (unique_acc_fresh [] _ _ H).
Qed.


(** ** The distribution *)

Lemma dict_set_absent k v d :
  mem k (keys d) = false -> dict_set k v d = d ++ [(k, v)].
Proof.
  induction d as [|[k' v'] d IH]; simpl; auto.
  intros H. apply orb_false_elim in H as [-> H]. now rewrite IH.
Qed.

Lemma distinct_middle l1 k l2 : distinct (l1 ++ k :: l2) -> mem k l1 = false.
Proof.
  induction l1 as [|a l1 IH]; simpl; auto.
  intros [Ha Hd]. rewrite mem_app in Ha. apply orb_false_elim in Ha as [_ Ha].
  simpl in Ha. apply orb_false_elim in Ha as [Ha _].
  rewrite cell_eqb_sym, Ha. simpl. now apply IH.
Qed.

(** Over distinct keys and a total that is not zero, the comprehension
    makes one entry per item, in the order of the items. *)
Lemma dict_comp_distinct total items : forall d,
  total <> 0 -> distinct (keys d ++ keys items) ->
  dict_comp total items d
  = Ok (d ++ map (fun kc => (fst kc, Spec.share total (snd kc))) items).
Proof.
  induction items as [|[k c] items IH]; intros d Ht Hd; simpl.
  - now rewrite app_nil_r.
  - unfold true_div. destruct (Nat.eqb_spec total 0) as [|_]; [contradiction|].
    simpl. rewrite (dict_set_absent _ _ _ (distinct_middle _ _ _ Hd)).
    rewrite IH; auto.
    + now rewrite <- app_assoc.
    + unfold keys in *. rewrite map_app, <- app_assoc. exact Hd.
Qed.

Lemma dict_comp_value_counts total l :
  value_counts l = [] \/ total <> 0 ->
  dict_comp total (value_counts l) []
  = Ok (map (fun kc => (fst kc, Spec.share total (snd kc))) (value_counts l)).
Proof.
  intros [-> | Ht]; [reflexivity|].
  rewrite dict_comp_distinct; auto. apply value_counts_distinct.
Qed.

Lemma dropna_idem l : dropna (dropna l) = dropna l.
Proof.
  unfold dropna. induction l as [|x l IH]; simpl; auto.
  destruct (isna x) eqn:E; simpl; rewrite ?E; simpl; congruence.
Qed.

Lemma dropna_CStr toks : dropna (map CStr toks) = map CStr toks.
Proof. induction toks; simpl; congruence. Qed.

Lemma flat_map_map {A B C} (f : B -> list C) (g : A -> B) l :
  flat_map f (map g l) = flat_map (fun x => f (g x)) l.
Proof. induction l; simpl; congruence. Qed.

Lemma counts_sum_pos counts :
  counts <> [] -> Forall (fun kc => 1 <= snd kc) counts -> counts_sum counts <> 0.
Proof.
  destruct counts as [|kc counts]; [congruence|]. intros _ H.
  inversion H; subst. simpl. lia.
Qed.

(** On a column that exists the distribution is the list of the value
    counts of its observations, each count divided by the total. *)
Lemma answer_distribution_eval repr_float self question multiple_choice s :
  getitem (df self) question = Ok s ->
  let counts :=
    value_counts (Spec.observations repr_float (s_values s) multiple_choice) in
  let total :=
    if multiple_choice
    then List.length (Spec.tokens repr_float (s_values s))
    else counts_sum counts in
  answer_distribution repr_float self question multiple_choice
  = Ok (map (fun kc => (fst kc, Spec.share total (snd kc))) counts)
  /\ (counts = [] \/ total <> 0).
Proof.
  intros Hget. unfold answer_distribution.
  rewrite (getitem_contains _ _ _ Hget), Hget; simpl.
  assert (Hflat : flat_map (fun sublist => map (fun opt => strip opt) sublist)
                           (split_options repr_float (s_values s))
                  = Spec.tokens repr_float (s_values s)).
  { unfold split_options, Spec.tokens. now rewrite flat_map_map. }
  destruct multiple_choice; simpl.
  - rewrite Hflat.
    assert (H : value_counts (map CStr (Spec.tokens repr_float (s_values s))) = []
                \/ List.length (Spec.tokens repr_float (s_values s)) <> 0).
    { destruct (Spec.tokens repr_float (s_values s)); [now left | now right]. }
    split; [now apply dict_comp_value_counts | exact H].
  - assert (Hvc : value_counts (dropna (s_values s)) = value_counts (s_values s)).
    { unfold value_counts. now rewrite dropna_idem. }
    rewrite Hvc.
    assert (H : value_counts (s_values s) = []
                \/ counts_sum (value_counts (s_values s)) <> 0).
    { destruct (value_counts (s_values s)) as [|kc cs] eqn:E; [now left|].
      right. rewrite <- E. apply counts_sum_pos; [congruence|].
      rewrite Forall_forall. intros [k n] Hin.
      now apply value_counts_pos with (s_values s) k. }
    split; [now apply dict_comp_value_counts | exact H].
Qed.

Lemma distinct_NoDup l : distinct l -> NoDup l.
Proof.
  induction l as [|k l IH]; simpl; intros H; constructor.
  - intros Hin. destruct H as [H _].
    pose proof (mem_false_In _ _ _ H Hin) as E.
    rewrite cell_eqb_refl in E. discriminate.
  - now apply IH.
Qed.




(** C7: for a column name that is not in the table, the distribution, in
    both modes, is the empty mapping and nothing is raised. *)
Theorem answer_distribution_absent_column repr_float self question
        multiple_choice :
  contains (df self) question = false ->
  answer_distribution repr_float self question multiple_choice = Ok [].
Proof. intros H. unfold answer_distribution. now rewrite H. Qed.

Lemma answer_distribution_absent_column_witness :
  answer_distribution (fun _ => "") Samples.survey "Q3" true = Ok []
  /\ answer_distribution (fun _ => "") Samples.survey "Q3" false = Ok [].
Proof.
  split; apply answer_distribution_absent_column; reflexivity.
Defined.

Lemma dropna_all_missing l :
  Forall (fun c => isna c = true) l -> dropna l = [].
Proof.
  induction 1 as [|c l Hc _ IH]; simpl; auto. now rewrite Hc.
Qed.

(** C10: for a column all of whose cells are missing (a table without rows
    included), the distribution, in both modes, is the empty mapping: no
    share is computed, so the zero total is never used as a denominator. *)
Theorem answer_distribution_all_missing repr_float self question
        multiple_choice s :
  getitem (df self) question = Ok s ->
  Forall (fun c => isna c = true) (s_values s) ->
  answer_distribution repr_float self question multiple_choice = Ok [].
Proof.
  intros Hget Hall.
  destruct (answer_distribution_eval repr_float self question multiple_choice
              s Hget) as [-> _].
  unfold Spec.observations, Spec.tokens.
  rewrite (dropna_all_missing _ Hall). now destruct multiple_choice.
Qed.

Lemma answer_distribution_all_missing_witness :
  answer_distribution (fun _ => "")
    (mkSurvey "s.xlsx" (mkDF [0; 1]%Z [mkColumn "Q" Float64 [CNaN; CNaN]]) ["Q"])
    "Q" true = Ok []
  /\ answer_distribution (fun _ => "")
       (mkSurvey "s.xlsx" (mkDF [] [mkColumn "Q" Object []]) ["Q"])
       "Q" false = Ok [].
Proof.
  split.
  - apply (answer_distribution_all_missing _ _ _ _
             (mkSeries Float64 [0; 1]%Z [CNaN; CNaN])); [reflexivity|].
    repeat constructor.
  - apply (answer_distribution_all_missing _ _ _ _ (mkSeries Object [] []));
      [reflexivity | constructor].
Defined.

(** The share division never meets a zero denominator: on every table, for
    every column name and in both modes, the distribution returns a
    mapping. *)
Lemma answer_distribution_returns repr_float self question multiple_choice :
  exists m,
    answer_distribution repr_float self question multiple_choice = Ok m.
Proof.
  destruct (getitem (df self) question) as [s|e] eqn:Hget.
  - destruct (answer_distribution_eval repr_float self question
                multiple_choice s Hget) as [-> _]. eauto.
  - exists []. unfold answer_distribution.
    destruct (contains (df self) question) eqn:Hc; auto.
    destruct (contains_find_column _ _ Hc) as [c Hf].
    unfold getitem in Hget. now rewrite Hf in Hget.
Qed.



(** *** Order of the distribution *)


Lemma Qnat_pos n : n <> 0 -> (0 < Qnat n)%Q.
Proof.
  intros H. unfold Qnat. change 0%Q with (inject_Z 0). rewrite <- Zlt_Qlt. lia.
Qed.



Lemma observations_dropna repr_float values multiple_choice :
  dropna (Spec.observations repr_float values multiple_choice)
  = Spec.observations repr_float values multiple_choice.
Proof.
  destruct multiple_choice; simpl; [apply dropna_CStr | apply dropna_idem].
Qed.



(** ** The session *)

Section Session.

Variable globals : Globals.
Variable shlex_split : string -> result (list string).
Variable int_of_str : string -> result Z.
Variable query : DataFrame -> string -> result DataFrame.
Variable to_csv : DataFrame -> string -> result unit.

Local Abbreviation onecmd := (onecmd globals shlex_split int_of_str query to_csv).
Local Abbreviation cmdloop := (cmdloop globals shlex_split int_of_str query to_csv).
Local Abbreviation do_filter := (do_filter globals shlex_split).
Local Abbreviation do_query := (do_query query).

Lemma onecmd_no_dataset self l :
  current_df self = None -> dataset_scoped (l_command l) = true ->
  onecmd self l = mkOutcome self [no_dataset] Continue.
Proof.
  intros Hnone Hscoped. unfold Repl.onecmd.
  destruct (l_command l); try discriminate;
    unfold do_info, do_head, do_tail, show_rows, do_columns, do_describe,
           Repl.do_filter, do_save, Repl.do_query;
    now rewrite Hnone.
Qed.

Lemma cmdloop_no_dataset self lines :
  current_df self = None ->
  Forall (fun l => dataset_scoped (l_command l) = true) lines ->
  cmdloop self lines
  = mkOutcome self
      (map (fun _ => no_dataset) lines
       ++ [Echo [Lit ""]; Echo [Lit "Goodbye!"]])
      Stop.
Proof.
  intros Hnone Hall. induction Hall as [|l lines Hl _ IH]; simpl.
  - reflexivity.
  - rewrite (onecmd_no_dataset self l Hnone Hl). simpl. now rewrite IH.
Qed.

(** C9: in a session without a dataset, each of [info], [head], [tail],
    [columns], [describe], [filter], [save] and [query] prints the
    no-dataset message, raises nothing, leaves the session as it was and
    lets the loop continue; a whole run of such commands is answered one
    by one, the session still without a dataset when the input ends. *)
Theorem no_dataset_commands self :
  current_df self = None ->
  (forall l,
      dataset_scoped (l_command l) = true ->
      onecmd self l = mkOutcome self [no_dataset] Continue)
  /\ (forall lines,
         Forall (fun l => dataset_scoped (l_command l) = true) lines ->
         cmdloop self lines
         = mkOutcome self
             (map (fun _ => no_dataset) lines
              ++ [Echo [Lit ""]; Echo [Lit "Goodbye!"]])
             Stop).
Proof.
  intros Hnone. split.
  - intros l. now apply onecmd_no_dataset.
  - intros lines. now apply cmdloop_no_dataset.
Qed.

Lemma do_filter_declined self args answer :
  Spec.affirmative answer = false ->
  session (do_filter self args answer) = self.
Proof.
  intros Hno. unfold Repl.do_filter, try_except, io_bind, lift, print, emit,
    input, io_ret, lookup.
  destruct answer as [response|e]; simpl in Hno; run_handler Hno.
Qed.

Lemma do_query_declined self args answer :
  Spec.affirmative answer = false ->
  session (do_query self args answer) = self.
Proof.
  intros Hno. unfold Repl.do_query, try_except, io_bind, lift, print, emit,
    input, io_ret.
  destruct answer as [response|e]; simpl in Hno; run_handler Hno.
Qed.

(** C8: whatever the session holds and whatever candidate [filter] or
    [query] computed, an answer to the replace question that is not an
    explicit yes leaves the session, and so its current table, exactly as
    it was; a session that changed was answered with an explicit yes. *)
Theorem decline_keeps_current_table self args answer :
  (Spec.affirmative answer = false ->
   session (do_filter self args answer) = self
   /\ session (do_query self args answer) = self)
  /\ (session (do_filter self args answer) <> self
      \/ session (do_query self args answer) <> self ->
      Spec.affirmative answer = true).
Proof.
  split.
  - intros Hno. split;
      [now apply do_filter_declined | now apply do_query_declined].
  - intros Hchanged. destruct (Spec.affirmative answer) eqn:E; auto.
    destruct Hchanged as [H | H]; exfalso; apply H;
      [now apply do_filter_declined | now apply do_query_declined].
Qed.

End Session.

Lemma no_dataset_commands_witness :
  onecmd repl_globals Samples.words Samples.no_int Samples.all_rows
         Samples.accept init (mkLine Cmd_head "" (Ok ""))
  = mkOutcome init [no_dataset] Continue.
Proof.
  apply (proj1 (no_dataset_commands repl_globals Samples.words Samples.no_int
                  Samples.all_rows Samples.accept init eq_refl)).
  reflexivity.
Defined.

Lemma decline_keeps_current_table_witness :
  session (do_filter Samples.with_imports Samples.words Samples.loaded
                     "country USA" (Ok "n")) = Samples.loaded
  /\ session (do_query Samples.all_rows Samples.loaded "country USA" (Ok "n"))
     = Samples.loaded.
Proof.
  apply (proj1 (decline_keeps_current_table Samples.with_imports Samples.words
                  Samples.all_rows Samples.loaded "country USA" (Ok "n"))).
  reflexivity.
Defined.

(** ** Descriptive statistics *)

(** C6: when the include list names a column that the table does not have,
    the restriction itself raises [KeyError], listing the unknown names,
    and [describe] raises that same error: no statistic is computed and no
    column is left out silently. *)
Theorem describe_unknown_column t include c :
  In c include -> contains t c = false ->
  exists missing,
    In c missing
    /\ getitem_list t include = Raise (KeyError missing (columns t))
    /\ describe t (Some include) = Raise (KeyError missing (columns t)).
Proof.
  intros Hin Hc. unfold describe, getitem_list.
  set (missing := filter (fun k => negb (contains t k)) include).
  assert (Hm : In c missing).
  { apply filter_In. split; auto. now rewrite Hc. }
  exists missing. destruct missing as [|m ms]; [destruct Hm|].
  repeat split; auto.
Qed.

Lemma describe_unknown_column_witness :
  exists missing,
    In "salary" missing
    /\ getitem_list Samples.people ["age"; "salary"]
       = Raise (KeyError missing (columns Samples.people))
    /\ describe Samples.people (Some ["age"; "salary"])
       = Raise (KeyError missing (columns Samples.people)).
Proof.
  apply describe_unknown_column; [simpl; auto | reflexivity].
Defined.

(** With an include list whose names are all columns, [describe] is
    [describe] of the restricted table. *)
Lemma describe_include t include t' :
  getitem_list t include = Ok t' -> describe t (Some include) = describe t' None.
Proof. intros H. unfold describe. now rewrite H. Qed.

(** *** The shape of the result *)

Lemma stat_rows_reduce (f1 f2 f3 f4 f5 f6 : list cell -> stat) cs :
  stat_rows (map col_name cs)
            [ map (fun c => f1 (col_values c)) cs;
              map (fun c => f2 (col_values c)) cs;
              map (fun c => f3 (col_values c)) cs;
              map (fun c => f4 (col_values c)) cs;
              map (fun c => f5 (col_values c)) cs;
              map (fun c => f6 (col_values c)) cs ]
  = map (fun c => (col_name c,
                   [ f1 (col_values c); f2 (col_values c); f3 (col_values c);
                     f4 (col_values c); f5 (col_values c); f6 (col_values c) ]))
        cs.
Proof.
  induction cs as [|c cs IH]; simpl; [reflexivity|]. f_equal. exact IH.
Qed.

Lemma describe_shape t :
  describe t None
  = Ok (mkSF Spec.statistics
          (map (fun c => (col_name c,
                          [ Pandas.count (col_values c);
                            Pandas.mean (col_values c);
                            Pandas.median (col_values c);
                            Pandas.std (col_values c);
                            Pandas.min (col_values c);
                            Pandas.max (col_values c) ]))
               (Spec.numeric_columns t))).
Proof.
  unfold describe, transpose, frame_of_dict, reduce, select_dtypes_number.
  cbn [Py.bind sf_columns sf_index df_columns map fst snd].
  rewrite !map_map. cbn [fst snd].
  fold (Spec.numeric_columns t).
  f_equal. f_equal.
  rewrite <- (stat_rows_reduce Pandas.count Pandas.mean Pandas.median
                Pandas.std Pandas.min Pandas.max).
  reflexivity.
Qed.

(** *** The reductions, against their statements over the numbers *)

(** In the lemmas below [l] holds the cells of a numeric column: numbers
    and missing markers, no text. *)









(** *** Sorting the numbers *)






(** *** Extremes *)











(** The docstring of [describe]: five ages and five numbers of years. *)
Example describe_people :
  describe Samples.people None
  = Ok (mkSF ["count"; "mean"; "median"; "std"; "min"; "max"]
          [ ("age",
             [Num 5; Num 35; Num 35; Sqrt (Qred 62.5); Num 25; Num 45]);
            ("years_coding",
             [Num 5; Num (Qred 10.2); Num 10; Sqrt 57.7; Num 1; Num 20]) ]).
Proof. vm_compute. reflexivity. Qed.

(** ** Worked examples *)

(** The docstring of [filter_by_column]: rows 0, 2 and 3 keep their
    labels. *)
Example filter_people_by_country :
  filter_by_column Samples.people "country" [CStr "USA"; CStr "UK"]
  = Ok (mkDF [0; 2; 3]%Z
          [ mkColumn "country" Object [CStr "USA"; CStr "UK"; CStr "USA"];
            mkColumn "age" Int64 [CInt 25; CInt 35; CInt 40];
            mkColumn "years_coding" Int64 [CInt 1; CInt 10; CInt 15] ],
        []).
Proof. reflexivity. Qed.

(** The text "25" selects no row of the integer column [age]; the advisory
    lists the values the column has.  The number 25 selects row 0. *)
Example filter_people_by_age_text :
  filter_by_column Samples.people "age" [CStr "25"]
  = Ok (mkDF []
          [ mkColumn "country" Object []; mkColumn "age" Int64 [];
            mkColumn "years_coding" Int64 [] ],
        [NoRowsFound [CStr "25"]
                     [CInt 25; CInt 30; CInt 35; CInt 40; CInt 45]]).
Proof. reflexivity. Qed.

Example filter_people_by_age_number :
  option_map (fun r => rows (fst r))
    (match filter_by_column Samples.people "age" [CInt 25] with
     | Ok r => Some r
     | Raise _ => None
     end)
  = Some [(0%Z, [CStr "USA"; CInt 25; CInt 1])].
Proof. reflexivity. Qed.

(** The docstring of [filter_by_value_range]. *)
Example filter_people_by_age_range :
  option_map rows
    (match filter_by_value_range Samples.people "age"
             (Some (CInt 30)) (Some (CInt 40)) with
     | Ok r => Some r
     | Raise _ => None
     end)
  = Some [ (1%Z, [CStr "Canada"; CInt 30; CInt 5]);
           (2%Z, [CStr "UK"; CInt 35; CInt 10]);
           (3%Z, [CStr "USA"; CInt 40; CInt 15]) ].
Proof. reflexivity. Qed.

(** A text column against a number raises; against a text it is compared
    by character codes; a missing marker given as a bound compares false
    with every cell and raises nothing. *)
Example range_text_column_number_bound :
  filter_by_value_range Samples.people "country" (Some (CInt 30)) None
  = Raise TypeError.
Proof. reflexivity. Qed.

Example range_text_column_text_bound :
  option_map df_index
    (match filter_by_value_range Samples.people "country"
             (Some (CStr "UK")) None with
     | Ok r => Some r
     | Raise _ => None
     end)
  = Some [0; 2; 3]%Z.
Proof. reflexivity. Qed.

Example range_missing_marker_as_bound :
  filter_by_value_range Samples.mixed "answer" (Some CNaN) None
  = Ok (mkDF [] [mkColumn "answer" Object []]).
Proof. reflexivity. Qed.

(** [tests/test_survey.py]: the single-valued distribution of Q2. *)
Example distribution_Q2 :
  answer_distribution (fun _ => "") Samples.survey "Q2" false
  = Ok [(CStr "Yes", Qred 0.5); (CStr "No", Qred 0.5)].
Proof. reflexivity. Qed.

(** With the analysis functions in the module namespace, [filter] shows the
    candidate and an explicit yes replaces the current table. *)
Example filter_then_yes :
  option_map rows
    (current_df
       (session (do_filter Samples.with_imports Samples.words Samples.loaded
                           "country USA" (Ok "Yes"))))
  = Some [ (0%Z, [CStr "USA"; CInt 25; CInt 1]);
           (3%Z, [CStr "USA"; CInt 40; CInt 15]) ].
Proof. reflexivity. Qed.

(** In the module as written [filter_by_column] is not bound: the handler
    reports the error and the session goes on with its table. *)
Example filter_as_written :
  do_filter repl_globals Samples.words Samples.loaded "country USA" (Ok "y")
  = mkOutcome Samples.loaded
      [Echo [Lit "Error filtering dataset: "; PExn (NameError "filter_by_column")]]
      Continue.
Proof. reflexivity. Qed.


(** * Further properties *)

(** ** The filters and the table invariant *)

Lemma select_length {A B} mask (l1 : list A) (l2 : list B) :
  List.length l1 = List.length l2 ->
  List.length (select mask l1) = List.length (select mask l2).
Proof.
  revert l1 l2. induction mask as [|b mask IH]; intros [|x l1] [|y l2] H;
    simpl in *; try discriminate; auto.
  destruct b; simpl; auto.
Qed.

Lemma select_length_le {A} mask (l : list A) :
  List.length (select mask l) <= List.length l.
Proof.
  revert l. induction mask as [|b mask IH]; intros [|x l]; simpl; try lia.
  specialize (IH l). destruct b; simpl; lia.
Qed.

Lemma Forall_select {A} (P : A -> Prop) mask l :
  Forall P l -> Forall P (select mask l).
Proof.
  intros H. revert mask. induction H as [|x l Hx _ IH]; intros [|b mask];
    simpl; auto.
  destruct b; auto.
Qed.

Lemma columns_getitem_mask t mask : columns (getitem_mask t mask) = columns t.
Proof. unfold columns, getitem_mask. simpl. now rewrite map_map. Qed.

Lemma contains_getitem_mask t mask column :
  contains (getitem_mask t mask) column = contains t column.
Proof. unfold contains. now rewrite columns_getitem_mask. Qed.

(** Masking rows keeps the table invariant. *)
Lemma wf_getitem_mask t mask : wf t -> wf (getitem_mask t mask).
Proof.
  intros (Hnd & Hrect & Htyped). split; [|split].
  - now rewrite columns_getitem_mask.
  - unfold getitem_mask; simpl. rewrite Forall_map. simpl.
    rewrite Forall_forall in *. intros c Hc. apply select_length. auto.
  - unfold getitem_mask; simpl. rewrite Forall_map. simpl.
    rewrite Forall_forall in *. intros c Hc Hnum.
    apply Forall_select. auto.
Qed.

Lemma find_column_getitem_mask t mask column :
  find_column (getitem_mask t mask) column
  = option_map (fun c => mkColumn (col_name c) (col_dtype c)
                                  (select mask (col_values c)))
               (find_column t column).
Proof.
  unfold find_column, getitem_mask. simpl.
  induction (df_columns t) as [|c cs IH]; simpl; auto.
  destruct (String.eqb column (col_name c)); auto.
Qed.

(** What a filter returns when it returns: the table masked by some mask. *)
Lemma filter_by_column_masked t column values out diag :
  filter_by_column t column values = Ok (out, diag) ->
  exists c,
    find_column t column = Some c
    /\ out = getitem_mask t (map (fun x => existsb (cell_eqb x) values)
                                 (col_values c)).
Proof.
  unfold filter_by_column.
  destruct (contains t column) eqn:Hc; simpl; [|discriminate].
  destruct values as [|v vs]; [discriminate|].
  destruct (contains_find_column _ _ Hc) as [c Hf].
  unfold getitem. rewrite Hf. simpl. unfold copy, isin. simpl.
  intros H. exists c. split; auto.
  destruct (empty _); congruence.
Qed.

Lemma series_compare_length op s b mask :
  series_compare op s b = Ok mask -> List.length mask = List.length (s_values s).
Proof.
  unfold series_compare. destruct (isna b).
  - intros [= <-]. now rewrite length_map.
  - destruct (is_number (s_dtype s) && is_str b); [discriminate|].
    revert mask. induction (s_values s) as [|x l IH]; simpl; intros mask.
    + now intros [= <-].
    + destruct (scalar_compare op x b); simpl; [|discriminate].
      destruct (mapM _ l); simpl; [|discriminate].
      intros [= <-]. simpl. f_equal. now apply IH.
Qed.

Lemma filter_by_value_range_masked t column lo hi out :
  filter_by_value_range t column lo hi = Ok out ->
  exists m1 m2, out = getitem_mask (getitem_mask t m1) m2 \/ out = getitem_mask t m1
                \/ out = t.
Proof.
  unfold filter_by_value_range.
  destruct (contains t column); simpl; [|discriminate]. unfold copy.
  destruct lo as [lo|]; simpl.
  - destruct (getitem t column) as [s|]; simpl; [|discriminate].
    destruct (series_compare Ge s lo) as [m1|]; simpl; [|discriminate].
    destruct hi as [hi|]; simpl.
    + destruct (getitem (getitem_mask t m1) column) as [s'|]; simpl;
        [|discriminate].
      destruct (series_compare Le s' hi) as [m2|]; simpl; [|discriminate].
      intros [= <-]. exists m1, m2. auto.
    + intros [= <-]. exists m1, []. auto.
  - destruct hi as [hi|]; simpl.
    + destruct (getitem t column) as [s|]; simpl; [|discriminate].
      destruct (series_compare Le s hi) as [m1|]; simpl; [|discriminate].
      intros [= <-]. exists m1, []. auto.
    + intros [= <-]. exists [], []. auto.
Qed.

(** X1: both filters keep the table invariant, the column names and the
    dtypes, and never return more rows than they were given. *)
Theorem filters_keep_invariant t column :
  wf t ->
  (forall values out diag,
      filter_by_column t column values = Ok (out, diag) ->
      wf out /\ columns out = columns t
      /\ map col_dtype (df_columns out) = map col_dtype (df_columns t)
      /\ nrows out <= nrows t)
  /\ (forall lo hi out,
         filter_by_value_range t column lo hi = Ok out ->
         wf out /\ columns out = columns t
         /\ map col_dtype (df_columns out) = map col_dtype (df_columns t)
         /\ nrows out <= nrows t).
Proof.
  intros Hwf.
  assert (Hmask : forall u m, wf u ->
            wf (getitem_mask u m) /\ columns (getitem_mask u m) = columns u
            /\ map col_dtype (df_columns (getitem_mask u m))
               = map col_dtype (df_columns u)
            /\ nrows (getitem_mask u m) <= nrows u).
  { intros u m Hu. repeat split.
    - now apply wf_getitem_mask.
    - now apply wf_getitem_mask.
    - now apply wf_getitem_mask.
    - apply columns_getitem_mask.
    - unfold getitem_mask; simpl. now rewrite map_map.
    - apply select_length_le. }
  split.
  - intros values out diag H.
    destruct (filter_by_column_masked _ _ _ _ _ H) as (c & _ & ->).
    now apply Hmask.
  - intros lo hi out H.
    destruct (filter_by_value_range_masked _ _ _ _ _ H)
      as (m1 & m2 & [-> | [-> | ->]]).
    + destruct (Hmask t m1 Hwf) as (Hw1 & Hc1 & Hd1 & Hn1).
      destruct (Hmask (getitem_mask t m1) m2 Hw1) as (Hw2 & Hc2 & Hd2 & Hn2).
      repeat split; try apply Hw2; try congruence. lia.
    + now apply Hmask.
    + repeat split; try apply Hwf. lia.
Qed.

Lemma filters_keep_invariant_witness :
  let out :=
    mkDF [0; 3]%Z
      [ mkColumn "country" Object [CStr "USA"; CStr "USA"];
        mkColumn "age" Int64 [CInt 25; CInt 40];
        mkColumn "years_coding" Int64 [CInt 1; CInt 15] ] in
  wf out /\ columns out = columns Samples.people
  /\ map col_dtype (df_columns out)
     = map col_dtype (df_columns Samples.people)
  /\ nrows out <= nrows Samples.people.
Proof.
  apply (proj1 (filters_keep_invariant Samples.people "country" wf_people)
               [CStr "USA"] _ []).
  reflexivity.
Defined.

(** ** The value filter, further *)

Lemma select_all_true {A B} (p : B -> bool) (l' : list B) (l : list A) :
  Forall (fun x => p x = true) l' -> List.length l = List.length l' ->
  select (map p l') l = l.
Proof.
  intros H. revert l. induction H as [|x l' Hx _ IH]; intros [|y l] Hlen;
    simpl in *; try discriminate; auto.
  rewrite Hx. f_equal. apply IH. lia.
Qed.

Lemma select_all_false {A B} (p : B -> bool) (l' : list B) (l : list A) :
  Forall (fun x => p x = false) l' -> select (map p l') l = [].
Proof.
  intros H. revert l. induction H as [|x l' Hx _ IH]; intros [|y l];
    simpl; auto.
  rewrite Hx. apply IH.
Qed.

Lemma select_map_holds {A} (p : A -> bool) l :
  Forall (fun x => p x = true) (select (map p l) l).
Proof. rewrite select_map_self. apply Forall_forall. intros x Hx.
  now apply filter_In in Hx. Qed.

Lemma wf_column_length t column c :
  wf t -> find_column t column = Some c ->
  List.length (col_values c) = List.length (df_index t).
Proof.
  intros (_ & Hrect & _) Hf. rewrite Forall_forall in Hrect. apply Hrect.
  unfold find_column in Hf. now apply find_some in Hf.
Qed.

(** Masking a table by a mask that holds everywhere gives the table. *)
Lemma getitem_mask_all_true {B} (p : B -> bool) (l : list B) t :
  wf t -> Forall (fun x => p x = true) l ->
  List.length l = List.length (df_index t) ->
  getitem_mask t (map p l) = t.
Proof.
  intros (_ & Hrect & _) Hall Hlen. unfold getitem_mask. destruct t as [idx cols].
  simpl in *. f_equal.
  - apply select_all_true; auto.
  - rewrite <- (map_id cols) at 2. apply map_ext_in. intros c Hc.
    rewrite Forall_forall in Hrect. specialize (Hrect c Hc).
    rewrite select_all_true; auto; [now destruct c | congruence].
Qed.

(** X2: filtering the result of [filter_by_column] again, by the same
    column and values, returns that result unchanged. *)
Theorem filter_by_column_idempotent t column values out diag :
  wf t ->
  filter_by_column t column values = Ok (out, diag) ->
  exists diag', filter_by_column out column values = Ok (out, diag').
Proof.
  intros Hwf Hrun.
  destruct (filter_by_column_masked _ _ _ _ _ Hrun) as (c & Hf & Hout).
  set (p := fun x => existsb (cell_eqb x) values) in *.
  assert (Hwf' : wf out) by (subst out; now apply wf_getitem_mask).
  assert (Hf' : find_column out column
                = Some (mkColumn (col_name c) (col_dtype c)
                                 (select (map p (col_values c)) (col_values c)))).
  { subst out. now rewrite find_column_getitem_mask, Hf. }
  assert (Hc : contains out column = true).
  { subst out. rewrite contains_getitem_mask.
    unfold filter_by_column in Hrun.
    destruct (contains t column); [reflexivity | discriminate]. }
  assert (Hv : values <> []).
  { intros ->. unfold filter_by_column in Hrun.
    destruct (contains t column); discriminate. }
  unfold filter_by_column. rewrite Hc. cbn [negb].
  destruct values as [|v vs]; [congruence|].
  unfold getitem. rewrite Hf'. cbn [Py.bind]. unfold copy, isin.
  cbn [s_values]. fold p.
  rewrite (getitem_mask_all_true p).
  - destruct (empty out); eauto.
  - exact Hwf'.
  - apply select_map_holds.
  - rewrite <- (wf_column_length out column _ Hwf' Hf'). reflexivity.
Qed.

Lemma filter_by_column_idempotent_witness :
  exists diag',
    filter_by_column
      (mkDF [0; 3]%Z
         [ mkColumn "country" Object [CStr "USA"; CStr "USA"];
           mkColumn "age" Int64 [CInt 25; CInt 40];
           mkColumn "years_coding" Int64 [CInt 1; CInt 15] ])
      "country" [CStr "USA"]
    = Ok (mkDF [0; 3]%Z
            [ mkColumn "country" Object [CStr "USA"; CStr "USA"];
              mkColumn "age" Int64 [CInt 25; CInt 40];
              mkColumn "years_coding" Int64 [CInt 1; CInt 15] ],
          diag').
Proof.
  apply (filter_by_column_idempotent Samples.people "country" [CStr "USA"]
           _ [] wf_people).
  reflexivity.
Defined.

Lemma NoDup_firstn {A} n (l : list A) : NoDup l -> NoDup (firstn n l).
Proof.
  intros H. rewrite <- (firstn_skipn n l) in H.
  now apply NoDup_app_remove_r in H.
Qed.

Lemma In_firstn {A} n (l : list A) x : In x (firstn n l) -> In x l.
Proof.
  intros H. rewrite <- (firstn_skipn n l). apply in_or_app. now left.
Qed.

Lemma getitem_mask_columns_nonempty t mask :
  df_columns t <> [] -> df_columns (getitem_mask t mask) <> [].
Proof.
  unfold getitem_mask; simpl. destruct (df_columns t); simpl; congruence.
Qed.

(** X3: [filter_by_column] prints its advisory exactly when it kept no row;
    the advisory then lists at most 20 values of the column, pairwise
    different and none of them missing. *)
Theorem filter_by_column_advisory t column values out diag :
  filter_by_column t column values = Ok (out, diag) ->
  (df_index out <> [] -> diag = [])
  /\ (df_index out = [] ->
      exists c available,
        find_column t column = Some c
        /\ diag = [NoRowsFound values available]
        /\ List.length available <= 20
        /\ NoDup available
        /\ forall x, In x available -> isna x = false /\ In x (col_values c)).
Proof.
  intros Hrun.
  destruct (filter_by_column_masked _ _ _ _ _ Hrun) as (c & Hf & Hout).
  assert (Hcols : df_columns out <> []).
  { subst out. apply getitem_mask_columns_nonempty.
    unfold find_column in Hf. apply find_some in Hf as [Hin _].
    intros E. rewrite E in Hin. destruct Hin. }
  unfold filter_by_column in Hrun.
  destruct (contains t column); [|discriminate]. cbn [negb] in Hrun.
  destruct values as [|v vs]; [discriminate|].
  unfold getitem in Hrun. rewrite Hf in Hrun. cbn [Py.bind] in Hrun.
  unfold copy, isin in Hrun. cbn [s_values] in Hrun. rewrite <- Hout in Hrun.
  unfold empty in Hrun.
  destruct (df_index out) as [|i idx] eqn:Hidx.
  - injection Hrun as <-. split; [congruence|]. intros _.
    exists c, (firstn 20 (unique (dropna (col_values c)))).
    repeat split; auto.
    + apply firstn_le_length.
    + apply NoDup_firstn, distinct_NoDup, unique_acc_distinct.
    + apply In_firstn, (unique_acc_fresh []) in H as [_ H].
      apply filter_In in H as [_ H]. now destruct (isna x).
    + apply In_firstn, (unique_acc_fresh []) in H as [_ H].
      now apply filter_In in H.
  - destruct (df_columns out); [congruence|].
    injection Hrun as <-. split; [reflexivity | discriminate].
Qed.

Lemma filter_by_column_advisory_witness :
  exists c available,
    find_column Samples.people "country" = Some c
    /\ [NoRowsFound [CStr "France"]
          [CStr "USA"; CStr "Canada"; CStr "UK"; CStr "Australia"]]
       = [NoRowsFound [CStr "France"] available]
    /\ List.length available <= 20
    /\ NoDup available
    /\ forall x, In x available -> isna x = false /\ In x (col_values c).
Proof.
  apply (proj2 (filter_by_column_advisory Samples.people "country"
                  [CStr "France"]
                  (mkDF []
                     [ mkColumn "country" Object []; mkColumn "age" Int64 [];
                       mkColumn "years_coding" Int64 [] ])
                  _ eq_refl)).
  reflexivity.
Defined.

Lemma not_text_no_match x texts :
  is_str x = false -> existsb (cell_eqb x) (map CStr texts) = false.
Proof.
  intros Hx. induction texts as [|s ss IH]; simpl; auto.
  rewrite IH. destruct x; simpl in *; try discriminate; auto.
Qed.

(** X4: text values select no row of a numeric column: on a column of a
    numeric dtype, [filter_by_column] with values that are all text (as the
    command line and the interactive [filter] pass them) returns a table
    without rows, together with the advisory. *)
Theorem filter_by_column_text_on_numeric t column c texts :
  wf t -> find_column t column = Some c -> is_number (col_dtype c) = true ->
  texts <> [] ->
  exists out available,
    filter_by_column t column (map CStr texts)
    = Ok (out, [NoRowsFound (map CStr texts) available])
    /\ rows out = [] /\ columns out = columns t.
Proof.
  intros Hwf Hf Hnum Ht.
  assert (Hc : contains t column = true).
  { apply getitem_contains
      with (mkSeries (col_dtype c) (df_index t) (col_values c)).
    unfold getitem. now rewrite Hf. }
  assert (Hfalse : Forall (fun x => existsb (cell_eqb x) (map CStr texts) = false)
                          (col_values c)).
  { destruct Hwf as (_ & _ & Htyped). rewrite Forall_forall in Htyped.
    unfold find_column in Hf. apply find_some in Hf as [Hin _].
    specialize (Htyped c Hin Hnum). rewrite Forall_forall in *.
    intros x Hx. now apply not_text_no_match, Htyped. }
  unfold filter_by_column. rewrite Hc. cbn [negb].
  destruct texts as [|s ss]; [congruence|]. cbn [map].
  unfold getitem. rewrite Hf. cbn [Py.bind]. unfold copy, isin. cbn [s_values].
  set (mask := map _ (col_values c)).
  assert (Hidx : df_index (getitem_mask t mask) = []).
  { unfold getitem_mask; simpl. now apply select_all_false. }
  unfold empty. rewrite Hidx.
  eexists _, _. split; [reflexivity|]. split.
  - unfold rows. now rewrite Hidx.
  - apply columns_getitem_mask.
Qed.

Lemma filter_by_column_text_on_numeric_witness :
  exists out available,
    filter_by_column Samples.people "age" (map CStr ["25"; "30"])
    = Ok (out, [NoRowsFound (map CStr ["25"; "30"]) available])
    /\ rows out = [] /\ columns out = columns Samples.people.
Proof.
  apply (filter_by_column_text_on_numeric Samples.people "age"
           (mkColumn "age" Int64 [CInt 25; CInt 30; CInt 35; CInt 40; CInt 45]));
    [exact wf_people | reflexivity | reflexivity | discriminate].
Defined.

(** ** The range filter, further *)




(** The rows of a table masked by a test on one column are the rows that
    pass the test. *)
Lemma rows_masked_by_column t column c (f : cell -> bool) :
  wf t -> find_column t column = Some c ->
  rows (getitem_mask t (map f (col_values c)))
  = filter (fun r => f (row_cell t column r)) (rows t).
Proof.
  intros Hwf Hf. rewrite rows_getitem_mask by assumption.
  rewrite (column_values_rows _ _ _ Hwf Hf), map_map.
  apply (select_map_self (fun r => f (row_cell t column r))).
Qed.







(** X6: a range with both bounds is the lower bound applied first and the
    upper bound applied to what is left, errors included; without bounds a
    table with the column comes back as it is. *)
Theorem filter_by_value_range_composes t column min_value max_value :
  filter_by_value_range t column min_value max_value
  = (r <- filter_by_value_range t column min_value None ;;
     filter_by_value_range r column None max_value)
  /\ (contains t column = true ->
      filter_by_value_range t column None None = Ok t).
Proof.
  unfold filter_by_value_range at 1 2 4.
  destruct (contains t column) eqn:Hc; cbn [negb]; [|split; [reflexivity | discriminate]].
  split; [|reflexivity]. unfold copy.
  assert (Hnext : forall r, contains r column = true ->
            filter_by_value_range r column None max_value
            = (result <- match max_value with
                         | Some hi =>
                             s <- getitem r column ;;
                             mask <- series_compare Le s hi ;;
                             Ok (getitem_mask r mask)
                         | None => Ok r
                         end ;; Ok result)).
  { intros r Hr. unfold filter_by_value_range. rewrite Hr. reflexivity. }
  destruct min_value as [lo|]; cbn [Py.bind].
  - destruct (getitem t column) as [s|e]; cbn [Py.bind]; [|reflexivity].
    destruct (series_compare Ge s lo) as [mask|e]; cbn [Py.bind];
      [|reflexivity].
    rewrite Hnext by (now rewrite contains_getitem_mask). reflexivity.
  - now rewrite Hnext.
Qed.

Lemma filter_by_value_range_composes_witness :
  filter_by_value_range Samples.people "age" None None = Ok Samples.people.
Proof.
  apply (proj2 (filter_by_value_range_composes Samples.people "age" None None)).
  reflexivity.
Defined.

(** ** The distribution, further *)

Lemma counts_sum_bump x acc : counts_sum (bump x acc) = S (counts_sum acc).
Proof.
  induction acc as [|[k n] acc IH]; simpl; auto.
  destruct (cell_eqb x k); simpl; [reflexivity|]. rewrite IH. lia.
Qed.

Lemma counts_sum_fold l : forall acc,
  counts_sum (fold_left (fun acc x => bump x acc) l acc)
  = counts_sum acc + List.length l.
Proof.
  induction l as [|x l IH]; intros acc; simpl; [lia|].
  rewrite IH, counts_sum_bump. lia.
Qed.

Lemma counts_sum_perm l l' : Permutation l l' -> counts_sum l = counts_sum l'.
Proof. induction 1; simpl; lia. Qed.

(** The counts add up to the number of cells that are not missing. *)
Lemma counts_sum_value_counts l :
  counts_sum (value_counts l) = List.length (dropna l).
Proof.
  unfold value_counts.
  rewrite (counts_sum_perm _ _ (sort_values_desc_perm _)).
  unfold count_keys. now rewrite counts_sum_fold.
Qed.

Lemma counts_sum_In counts kc : In kc counts -> snd kc <= counts_sum counts.
Proof.
  induction counts as [|x counts IH]; simpl; [easy|].
  intros [-> | H]; [lia|]. specialize (IH H). lia.
Qed.

Lemma Qnat_add a b : (Qnat (a + b) == Qnat a + Qnat b)%Q.
Proof. unfold Qnat. now rewrite Nat2Z.inj_add, inject_Z_plus. Qed.

Lemma Qsum_shares total counts :
  (Qsum (map (fun kc : cell * nat => Spec.share total (snd kc)) counts)
   == Qnat (counts_sum counts) / Qnat total)%Q.
Proof.
  induction counts as [|kc counts IH]; simpl.
  - unfold Qdiv. change (Qnat 0) with 0%Q. ring.
  - rewrite IH, Qnat_add. unfold Spec.share. rewrite Qred_correct.
    unfold Qdiv. ring.
Qed.

Lemma share_pos total cnt :
  total <> 0 -> 1 <= cnt -> (0 < Spec.share total cnt)%Q.
Proof.
  intros Ht Hc. unfold Spec.share. rewrite Qred_correct. unfold Qdiv.
  apply Qmult_lt_0_compat.
  - apply Qnat_pos. lia.
  - apply Qinv_lt_0_compat, Qnat_pos, Ht.
Qed.

Lemma share_le_1 total cnt :
  total <> 0 -> cnt <= total -> (Spec.share total cnt <= 1)%Q.
Proof.
  intros Ht Hc. unfold Spec.share. rewrite Qred_correct.
  apply Qle_shift_div_r; [now apply Qnat_pos|].
  rewrite Qmult_1_l. unfold Qnat. rewrite <- Zle_Qle. lia.
Qed.

(** The total that divides the counts is the number of observations. *)
Lemma answer_distribution_total repr_float values (multiple_choice : bool) :
  (if multiple_choice
   then List.length (Spec.tokens repr_float values)
   else counts_sum
          (value_counts (Spec.observations repr_float values multiple_choice)))
  = List.length (Spec.observations repr_float values multiple_choice).
Proof.
  destruct multiple_choice; simpl.
  - now rewrite length_map.
  - now rewrite counts_sum_value_counts, dropna_idem.
Qed.

(** X7: when the column has at least one observation (a token in the
    multi-valued mode, a cell that is not missing otherwise), every share
    of the distribution is positive and at most 1, and the shares add up
    to 1. *)
Theorem answer_distribution_shares repr_float self question multiple_choice s :
  getitem (df self) question = Ok s ->
  Spec.observations repr_float (s_values s) multiple_choice <> [] ->
  exists m,
    answer_distribution repr_float self question multiple_choice = Ok m
    /\ m <> []
    /\ Forall (fun kv => 0 < snd kv /\ snd kv <= 1)%Q m
    /\ (Qsum (map snd m) == 1)%Q.
Proof.
  intros Hget Hobs.
  destruct (answer_distribution_eval repr_float self question multiple_choice
              s Hget) as [Hrun _].
  rewrite answer_distribution_total in Hrun.
  set (obs := Spec.observations repr_float (s_values s) multiple_choice) in *.
  assert (Hsum : counts_sum (value_counts obs) = List.length obs).
  { rewrite counts_sum_value_counts. unfold obs.
    now rewrite observations_dropna. }
  assert (Ht : List.length obs <> 0) by (destruct obs; simpl; congruence).
  eexists. split; [exact Hrun|]. repeat split.
  - intros E. apply map_eq_nil in E. rewrite E in Hsum. simpl in Hsum. lia.
  - rewrite Forall_map, Forall_forall. intros [k n] Hin. simpl.
    split.
    + apply share_pos; auto. now apply value_counts_pos with obs k.
    + apply share_le_1; auto. rewrite <- Hsum.
      apply (counts_sum_In _ (k, n) Hin).
  - rewrite map_map. simpl. rewrite Qsum_shares, Hsum.
    apply Qmult_inv_r. intros E. pose proof (Qnat_pos _ Ht) as Hp.
    rewrite E in Hp. now apply Qlt_irrefl in Hp.
Qed.

Lemma answer_distribution_shares_witness :
  exists m,
    answer_distribution (fun _ => "") Samples.survey "Q2" false = Ok m
    /\ m <> []
    /\ Forall (fun kv => 0 < snd kv /\ snd kv <= 1)%Q m
    /\ (Qsum (map snd m) == 1)%Q.
Proof.
  apply (answer_distribution_shares (fun _ => "") Samples.survey "Q2" false
           (mkSeries Object [0; 1; 2; 3; 4; 5]%Z
              [CStr "Yes"; CStr "No"; CStr "Yes"; CStr "No"; CStr "Yes";
               CStr "No"]));
    [reflexivity | discriminate].
Defined.



(** ** The functions of [stats.py] on lists *)








(** *** The median splits the data *)















(** ** The entries of [describe] fit together *)













(** ** [mode] on a list *)









Example mode_two_values :
  StatsFunctions.mode (fun _ => [])
    (StatsFunctions.OfList [CInt 2; CStr "a"; CInt 2; CStr "a"; CInt 5])
  = StatsFunctions.ModeList [CInt 2; CStr "a"].
Proof. reflexivity. Qed.

(** ** Searching the questions *)










(** ** Respondents who chose an option *)









(** ** The commands that load, list and inspect datasets *)

Section FullSession.

Variable names : ReplLoad.CatalogNames.
Variable globals : Globals.
Variable shlex_split : string -> result (list string).
Variable int_of_str : string -> result Z.
Variable query : DataFrame -> string -> result DataFrame.
Variable to_csv : DataFrame -> string -> result unit.
Variable load_survey : string -> ReplLoad.sheet -> result DataFrame.
Variable list_excel_sheets : string -> result (list string).

Local Abbreviation do_load :=
  (ReplLoad.do_load names shlex_split int_of_str load_survey).
Local Abbreviation do_catalog := (ReplLoad.do_catalog names shlex_split).
Local Abbreviation do_sheets :=
  (ReplLoad.do_sheets names shlex_split list_excel_sheets).
Local Abbreviation onecmd_full :=
  (ReplLoad.onecmd_full names globals shlex_split int_of_str query to_csv
                        load_survey list_excel_sheets).
Local Abbreviation cmdloop_full :=
  (ReplLoad.cmdloop_full names globals shlex_split int_of_str query to_csv
                         load_survey list_excel_sheets).

Lemma io_bind_emit_session (o : list out) (self : SurveyREPL) :
  snd (io_bind (emit o) (fun _ => io_ret self)) = Ok self.
Proof. reflexivity. Qed.

Lemma try_except_unchanged self prefix o e :
  session (try_except self prefix (o, Raise e)) = self.
Proof. unfold try_except. now destruct (is_Exception e). Qed.


Lemma do_catalog_session self args : session (do_catalog self args) = self.
Proof.
  unfold ReplLoad.do_catalog, try_except, io_bind, lift, print, emit,
    io_ret, lookup.
  run_handler I.
Qed.

Lemma do_sheets_session self args : session (do_sheets self args) = self.
Proof.
  unfold ReplLoad.do_sheets, try_except, io_bind, lift, print, emit,
    io_ret, lookup.
  run_handler I.
Qed.

Lemma do_load_cases self args :
  session (do_load self args) = self
  \/ exists dataset rest o path t,
       shlex_split args = Ok (dataset :: rest)
       /\ ReplLoad.parse_load int_of_str rest ReplLoad.default_options = Ok o
       /\ ReplLoad.g_get_dataset_path names = Some path
       /\ load_survey (path dataset (ReplLoad.o_directory o))
                      (ReplLoad.o_sheet o) = Ok t
       /\ do_load self args
          = mkOutcome
              (mkREPL (Some dataset) (Some t) (ReplLoad.o_directory o))
              ([Echo [Lit "Loaded dataset '"; PStr dataset; Lit "' with ";
                      PNat (nrows t); Lit " rows and ";
                      PNat (List.length (df_columns t)); Lit " columns."];
                Echo [Lit "Preview:"];
                FrameText (head (ReplLoad.o_head o) t);
                Echo [Lit "Columns:"]]
               ++ map (fun c => Echo [Lit "  - "; PStr (col_name c);
                                      Lit " ("; PDtype (col_dtype c);
                                      Lit ")"])
                      (df_columns t))
              Continue.
Proof.
  unfold ReplLoad.do_load, try_except, io_bind, lift, print, emit, io_ret,
    lookup.
  destruct (shlex_split args) as [[|dataset rest]|e] eqn:Hsplit; simpl;
    [left; reflexivity | | left; now destruct (is_Exception e)].
  destruct (ReplLoad.parse_load int_of_str rest ReplLoad.default_options)
    as [o|e] eqn:Hparse; simpl; [| left; now destruct (is_Exception e)].
  destruct (ReplLoad.g_get_dataset_path names) as [path|] eqn:Hpath; simpl;
    [| left; reflexivity].
  destruct (load_survey (path dataset (ReplLoad.o_directory o))
                        (ReplLoad.o_sheet o)) as [t|e] eqn:Hload; simpl;
    [| left; now destruct (is_Exception e)].
  right. exists dataset, rest, o, path, t.
  repeat split; try assumption.
  now rewrite app_nil_r.
Qed.

Lemma do_filter_cases self args answer :
  session (do_filter globals shlex_split self args answer) = self
  \/ exists t,
       session (do_filter globals shlex_split self args answer)
       = set_current_df self t.
Proof.
  unfold do_filter, try_except, io_bind, lift, print, emit, input, io_ret,
    lookup.
  destruct answer as [response|e];
    run_handler I; try (now left); right; eexists; reflexivity.
Qed.

Lemma do_query_cases self args answer :
  session (do_query query self args answer) = self
  \/ exists t,
       session (do_query query self args answer) = set_current_df self t.
Proof.
  unfold do_query, try_except, io_bind, lift, print, emit, input, io_ret.
  destruct answer as [response|e];
    run_handler I; try (now left); right; eexists; reflexivity.
Qed.

Lemma onecmd_read_only self l :
  l_command l <> Cmd_filter -> l_command l <> Cmd_query ->
  session (onecmd globals shlex_split int_of_str query to_csv self l) = self.
Proof.
  intros Hf Hq. unfold onecmd.
  destruct (l_command l); try congruence;
    unfold do_info, do_head, do_tail, show_rows, do_columns, do_describe,
           do_save, do_quit, do_exit, do_EOF, try_except, io_bind, lift,
           print, emit, io_ret, lookup;
    run_handler I.
Qed.

Lemma onecmd_full_read_only self l :
  ReplLoad.may_replace (ReplLoad.fl_command l) = false ->
  session (onecmd_full self l) = self.
Proof.
  intros Hro. unfold ReplLoad.onecmd_full.
  destruct (ReplLoad.fl_command l) as [c| | | | |] eqn:Hc;
    try discriminate; try reflexivity.
  - apply onecmd_read_only; simpl; intros ->; discriminate.
  - apply do_catalog_session.
  - apply do_sheets_session.
Qed.

Lemma onecmd_full_labels self l :
  ReplLoad.fl_command l <> ReplLoad.Cmd_load ->
  current_dataset (session (onecmd_full self l)) = current_dataset self
  /\ directory (session (onecmd_full self l)) = directory self.
Proof.
  intros Hload.
  destruct (ReplLoad.may_replace (ReplLoad.fl_command l)) eqn:Hro;
    [| now rewrite onecmd_full_read_only].
  unfold ReplLoad.onecmd_full.
  destruct (ReplLoad.fl_command l) as [c| | | | |]; try discriminate;
    try congruence.
  destruct c; try discriminate; unfold onecmd; simpl.
  - destruct (do_filter_cases self (ReplLoad.fl_args l)
                              (ReplLoad.fl_answer l)) as [-> | [t ->]];
      now split.
  - destruct (do_query_cases self (ReplLoad.fl_args l)
                             (ReplLoad.fl_answer l)) as [-> | [t ->]];
      now split.
Qed.


(** X16: only [load] changes the dataset name and the directory of the
    session, and only [load], [filter] and [query] can change anything: every
    other line ([info], [head], [tail], [columns], [describe], [save],
    [catalog], [sheets], [exit], [quit], the end of the input, an unknown
    command, an empty line) leaves the session exactly as it was, whatever
    its arguments and whatever the services do. *)
Theorem only_load_filter_query_change self l :
  (ReplLoad.may_replace (ReplLoad.fl_command l) = false ->
   session (onecmd_full self l) = self)
  /\ (ReplLoad.fl_command l <> ReplLoad.Cmd_load ->
      current_dataset (session (onecmd_full self l)) = current_dataset self
      /\ directory (session (onecmd_full self l)) = directory self).
Proof.
  split; [apply onecmd_full_read_only | apply onecmd_full_labels].
Qed.

Lemma cmdloop_full_ending self lines :
  ending (cmdloop_full self lines) <> Continue.
Proof.
  revert self. induction lines as [|l lines IH]; intros self; simpl.
  - discriminate.
  - destruct (ending (onecmd_full self l)) eqn:E; simpl.
    + apply IH.
    + now rewrite E.
    + now rewrite E.
Qed.

Lemma cmdloop_full_stops self pre l post :
  ReplLoad.ends_loop (ReplLoad.fl_command l) = true ->
  cmdloop_full self (pre ++ l :: post) = cmdloop_full self (pre ++ [l]).
Proof.
  intros Hend. revert self. induction pre as [|p pre IH]; intros self; simpl.
  - unfold ReplLoad.onecmd_full.
    destruct (ReplLoad.fl_command l) as [c| | | | |]; try discriminate.
    destruct c; try discriminate; reflexivity.
  - destruct (ending (onecmd_full self p)); try reflexivity.
    now rewrite IH.
Qed.

(** X17: nothing runs after the loop was told to end: the lines that follow
    an [exit], a [quit] or an end of input change neither the session nor
    what is printed; and every run ends, by one of these or by an exception
    that left a handler. *)
Theorem nothing_runs_after_exit self pre l post :
  ReplLoad.ends_loop (ReplLoad.fl_command l) = true ->
  cmdloop_full self (pre ++ l :: post) = cmdloop_full self (pre ++ [l])
  /\ ending (cmdloop_full self (pre ++ l :: post)) <> Continue.
Proof.
  intros Hend. split;
    [now apply cmdloop_full_stops | apply cmdloop_full_ending].
Qed.

Lemma onecmd_full_without_dataset self l :
  ReplLoad.g_get_dataset_path names = None ->
  current_df self = None ->
  session (onecmd_full self l) = self.
Proof.
  intros Hunbound Hnone.
  destruct (ReplLoad.may_replace (ReplLoad.fl_command l)) eqn:Hro;
    [| now apply onecmd_full_read_only].
  unfold ReplLoad.onecmd_full.
  destruct (ReplLoad.fl_command l) as [c| | | | |]; try discriminate.
  - destruct c; try discriminate;
      now rewrite onecmd_no_dataset.
  - destruct (do_load_cases self (ReplLoad.fl_args l))
      as [H | (dataset & rest & o & path & t & _ & _ & Hpath & _)];
      [exact H | congruence].
Qed.

(** X18: [load] looks [get_dataset_path] up in the module namespace when it
    is called, and repl.py imports neither catalog function.  Whenever the
    name is unbound, as in the module as written, a [load] whose arguments
    were split and read prints the [NameError] and changes nothing, whatever
    the loader would have returned; and a run that starts without a dataset
    still has none when it ends, whatever lines are entered. *)
Theorem load_needs_catalog_import self :
  ReplLoad.g_get_dataset_path names = None ->
  (forall args dataset rest o,
      shlex_split args = Ok (dataset :: rest) ->
      ReplLoad.parse_load int_of_str rest ReplLoad.default_options = Ok o ->
      do_load self args
      = mkOutcome self
          [Echo [Lit "Error loading dataset: ";
                 PExn (NameError "get_dataset_path")]]
          Continue)
  /\ (current_df self = None ->
      forall lines, session (cmdloop_full self lines) = self).
Proof.
  intros Hunbound. split.
  - intros args dataset rest o Hsplit Hparse.
    unfold ReplLoad.do_load, try_except, io_bind, lift, print, emit, io_ret,
      lookup.
    rewrite Hsplit. simpl. rewrite Hparse. simpl. now rewrite Hunbound.
  - intros Hnone lines. induction lines as [|l lines IH]; simpl.
    + reflexivity.
    + pose proof (onecmd_full_without_dataset self l Hunbound Hnone) as Hs.
      destruct (ending (onecmd_full self l)); simpl; try exact Hs.
      now rewrite Hs.
Qed.

End FullSession.

Lemma only_load_filter_query_change_witness :
  session (ReplLoad.onecmd_full
             SessionSamples.with_catalog Samples.with_imports Samples.words
             Samples.no_int Samples.all_rows Samples.accept
             SessionSamples.reads_people SessionSamples.one_sheet
             Samples.loaded
             (ReplLoad.mkFullLine ReplLoad.Cmd_sheets "people" (Ok "")))
  = Samples.loaded.
Proof.
  apply (proj1 (only_load_filter_query_change
                  SessionSamples.with_catalog Samples.with_imports
                  Samples.words Samples.no_int Samples.all_rows
                  Samples.accept SessionSamples.reads_people
                  SessionSamples.one_sheet Samples.loaded
                  (ReplLoad.mkFullLine ReplLoad.Cmd_sheets "people"
                                       (Ok "")))).
  reflexivity.
Defined.

Lemma nothing_runs_after_exit_witness :
  ReplLoad.cmdloop_full
    SessionSamples.with_catalog Samples.with_imports Samples.words
    Samples.no_int Samples.all_rows Samples.accept
    SessionSamples.reads_people SessionSamples.one_sheet init
    ([ReplLoad.mkFullLine ReplLoad.Cmd_load "people" (Ok "")]
     ++ ReplLoad.mkFullLine (ReplLoad.Dataset Cmd_exit) "" (Ok "")
     :: [ReplLoad.mkFullLine (ReplLoad.Dataset Cmd_filter) "country USA"
                             (Ok "y")])
  = ReplLoad.cmdloop_full
      SessionSamples.with_catalog Samples.with_imports Samples.words
      Samples.no_int Samples.all_rows Samples.accept
      SessionSamples.reads_people SessionSamples.one_sheet init
      ([ReplLoad.mkFullLine ReplLoad.Cmd_load "people" (Ok "")]
       ++ [ReplLoad.mkFullLine (ReplLoad.Dataset Cmd_exit) "" (Ok "")]).
Proof.
  apply (proj1 (nothing_runs_after_exit
                  SessionSamples.with_catalog Samples.with_imports
                  Samples.words Samples.no_int Samples.all_rows
                  Samples.accept SessionSamples.reads_people
                  SessionSamples.one_sheet init
                  [ReplLoad.mkFullLine ReplLoad.Cmd_load "people" (Ok "")]
                  (ReplLoad.mkFullLine (ReplLoad.Dataset Cmd_exit) ""
                                       (Ok ""))
                  [ReplLoad.mkFullLine (ReplLoad.Dataset Cmd_filter)
                                       "country USA" (Ok "y")]
                  eq_refl)).
Defined.

Lemma load_needs_catalog_import_witness :
  session (ReplLoad.cmdloop_full
             ReplLoad.repl_catalog_names repl_globals Samples.words
             Samples.no_int Samples.all_rows Samples.accept
             SessionSamples.reads_people SessionSamples.one_sheet init
             [ReplLoad.mkFullLine ReplLoad.Cmd_load "people" (Ok "");
              ReplLoad.mkFullLine (ReplLoad.Dataset Cmd_info) "" (Ok "")])
  = init.
Proof.
  apply (proj2 (load_needs_catalog_import
                  ReplLoad.repl_catalog_names repl_globals Samples.words
                  Samples.no_int Samples.all_rows Samples.accept
                  SessionSamples.reads_people SessionSamples.one_sheet init
                  eq_refl)).
  reflexivity.
Defined.

(** With the catalog functions imported and a workbook that holds the
    docstring table, [load people -d data] stores the name, the table and the directory. *)
Example load_people :
  session (ReplLoad.do_load SessionSamples.with_catalog Samples.words
             Samples.no_int SessionSamples.reads_people init
             "people -d data")
  = mkREPL (Some "people") (Some Samples.people) (Some "data").
Proof. reflexivity. Qed.

(** ** Dataset names and paths *)

Lemma lower_app a b : lower (a ++ b) = (lower a ++ lower b)%string.
Proof. induction a as [|c a IH]; simpl; [reflexivity | now rewrite IH]. Qed.

Lemma string_app_assoc (a b c : string) :
  ((a ++ b) ++ c)%string = (a ++ b ++ c)%string.
Proof. induction a as [|x a IH]; simpl; [reflexivity | now rewrite IH]. Qed.

Lemma endswith_refl s : Catalog.endswith s s = true.
Proof. destruct s; cbn [Catalog.endswith]; now rewrite String.eqb_refl. Qed.

Lemma endswith_app a b suffix :
  Catalog.endswith b suffix = true ->
  Catalog.endswith (a ++ b) suffix = true.
Proof.
  intros H. induction a as [|c a IH]; simpl; [exact H |].
  rewrite IH. apply orb_true_r.
Qed.

Lemma is_excel_app a b :
  Catalog.is_excel b = true -> Catalog.is_excel (a ++ b) = true.
Proof.
  unfold Catalog.is_excel. rewrite lower_app. intros H.
  apply orb_true_iff in H. apply orb_true_iff.
  destruct H as [H | H]; [left | right]; now apply endswith_app.
Qed.

Lemma is_excel_xlsx name : Catalog.is_excel (name ++ ".xlsx") = true.
Proof. apply is_excel_app. reflexivity. Qed.

Lemma join_step_suffix path b :
  exists a, Catalog.join_step path b = (a ++ b)%string.
Proof.
  unfold Catalog.join_step.
  destruct (String.prefix "/" b); [now exists ""%string |].
  destruct (String.eqb path "" || Catalog.endswith path "/").
  - now exists path.
  - exists (path ++ "/")%string. now rewrite string_app_assoc.
Qed.

Lemma get_dataset_path_is_excel module_dir name directory :
  Catalog.is_excel (Catalog.get_dataset_path module_dir name directory)
  = true.
Proof.
  unfold Catalog.get_dataset_path, Catalog.join. simpl.
  match goal with
  | |- context [Catalog.join_step ?d ?n] =>
      destruct (join_step_suffix d n) as [a ->]
  end.
  apply is_excel_app.
  destruct (Catalog.is_excel name) eqn:E; simpl;
    [exact E | apply is_excel_xlsx].
Qed.

(** X19: the path [get_dataset_path] returns always has an Excel
    extension, with whatever name and directory it is called, and a name
    given with or without [.xlsx] resolves to the same path.  So the loader
    never rejects a resolved path for its extension: [load_survey] and
    [list_excel_sheets] report a missing file as [FileNotFoundError] for
    exactly that path, and never the extension error. *)
Theorem resolved_path_is_excel (module_dir : string)
        (path_exists : string -> bool)
        (read_excel : string -> ReplLoad.sheet -> result Loader.excel)
        (sheet_names : string -> result (list string))
        (name : string) (directory : option string)
        (sheet_name : ReplLoad.sheet) :
  let p := Catalog.get_dataset_path module_dir name directory in
  Catalog.is_excel p = true
  /\ (Catalog.is_excel name = false ->
      Catalog.get_dataset_path module_dir (name ++ ".xlsx") directory = p)
  /\ (path_exists p = false ->
      Loader.load_survey path_exists read_excel p sheet_name
      = ([], inl (Loader.FileNotFoundError p))
      /\ Loader.list_excel_sheets path_exists sheet_names p
         = inl (Loader.FileNotFoundError p))
  /\ (forall q,
         snd (Loader.load_survey path_exists read_excel p sheet_name)
         <> inl (Loader.NotExcel q))
  /\ (forall q,
         Loader.list_excel_sheets path_exists sheet_names p
         <> inl (Loader.NotExcel q)).
Proof.
  intros p.
  pose proof (get_dataset_path_is_excel module_dir name directory) as Hp.
  fold p in Hp.
  split; [exact Hp |]. split; [| split; [| split]].
  - intros E. unfold p, Catalog.get_dataset_path.
    rewrite E, is_excel_xlsx. reflexivity.
  - intros E. unfold Loader.load_survey, Loader.list_excel_sheets.
    rewrite Hp, E. simpl. now split.
  - intros q. unfold Loader.load_survey. rewrite Hp. simpl.
    destruct (path_exists p); simpl; [| discriminate].
    destruct (read_excel p sheet_name) as [[t|d]|e]; simpl.
    + discriminate.
    + destruct sheet_name; simpl; try discriminate.
      destruct d as [|[n t] d]; simpl; discriminate.
    + unfold Loader.reraise. destruct (is_Exception e); discriminate.
  - intros q. unfold Loader.list_excel_sheets. rewrite Hp. simpl.
    destruct (path_exists p); simpl; [| discriminate].
    destruct (sheet_names p) as [l|e]; [discriminate |].
    unfold Loader.reraise. destruct (is_Exception e); discriminate.
Qed.

Lemma resolved_path_is_excel_witness :
  Catalog.get_dataset_path SessionSamples.module_dir "people.xlsx"
                           (Some "data")
  = Catalog.get_dataset_path SessionSamples.module_dir "people"
                             (Some "data").
Proof.
  apply (proj1 (proj2 (resolved_path_is_excel
                         SessionSamples.module_dir SessionSamples.present
                         (fun _ _ => Ok (Loader.Frame Samples.people))
                         SessionSamples.one_sheet "people" (Some "data")
                         ReplLoad.NoSheet))).
  reflexivity.
Defined.

Lemma occurs_app c a b :
  CatalogStatements.occurs c (a ++ b)
  = CatalogStatements.occurs c a || CatalogStatements.occurs c b.
Proof.
  induction a as [|x a IH]; simpl; [reflexivity |].
  now rewrite IH, orb_assoc.
Qed.

Lemma rfind_absent c s :
  CatalogStatements.occurs c s = false -> Catalog.rfind c s = (-1)%Z.
Proof.
  induction s as [|a s IH]; simpl; [reflexivity |].
  intros H. apply orb_false_iff in H. destruct H as [Ha Hs].
  rewrite (IH Hs), Ha. reflexivity.
Qed.

Lemma rfind_last c s e :
  CatalogStatements.occurs c e = false ->
  Catalog.rfind c (s ++ String c e) = Z.of_nat (String.length s).
Proof.
  intros He. induction s as [|a s IH].
  - simpl. rewrite (rfind_absent c e He), Ascii.eqb_refl. reflexivity.
  - cbn [append Catalog.rfind String.length]. rewrite IH.
    destruct (0 <=? Z.of_nat (String.length s))%Z eqn:E; [lia |].
    apply Z.leb_gt in E. lia.
Qed.

Lemma substring_prefix s t : substring 0 (String.length s) (s ++ t) = s.
Proof. induction s as [|a s IH]; simpl; [now destruct t | now rewrite IH]. Qed.

Lemma substring_whole t : substring 0 (String.length t) t = t.
Proof. induction t as [|a t IH]; simpl; [reflexivity | now rewrite IH]. Qed.

Lemma substring_skip s t n :
  substring (String.length s) n (s ++ t) = substring 0 n t.
Proof. induction s as [|a s IH]; simpl; [reflexivity | exact IH]. Qed.

Lemma string_length_app s t :
  String.length (s ++ t) = String.length s + String.length t.
Proof. induction s as [|a s IH]; simpl; [reflexivity | now rewrite IH]. Qed.

Lemma string_app_inv_head a x y : (a ++ x)%string = (a ++ y)%string -> x = y.
Proof.
  induction a as [|c a IH]; simpl; [trivial |].
  intros H. inversion H. now apply IH.
Qed.

Lemma string_app_nil_r s : (s ++ "")%string = s.
Proof. induction s as [|a s IH]; simpl; [reflexivity | now rewrite IH]. Qed.

Lemma plain_stem_not_absolute stem e :
  CatalogStatements.plain_stem stem = true ->
  String.prefix "/" (stem ++ e) = false.
Proof.
  unfold CatalogStatements.plain_stem. intros H.
  apply andb_true_iff in H. destruct H as [Hsep Hdots].
  destruct stem as [|a s]; [discriminate |].
  cbn [CatalogStatements.occurs] in Hsep.
  apply negb_true_iff, orb_false_iff in Hsep. destruct Hsep as [Ha _].
  cbn -[ascii_dec].
  destruct (ascii_dec "/" a) as [<- | _]; [| reflexivity].
  discriminate.
Qed.

Lemma join_step_inv d x y :
  String.prefix "/" x = false -> String.prefix "/" y = false ->
  Catalog.join_step d x = Catalog.join_step d y -> x = y.
Proof.
  unfold Catalog.join_step. intros -> ->.
  destruct (String.eqb d "" || Catalog.endswith d "/"); intros H.
  - now apply string_app_inv_head in H.
  - apply string_app_inv_head in H. now inversion H.
Qed.

Lemma splitext_stem_ext stem ext :
  CatalogStatements.plain_stem stem = true ->
  CatalogStatements.is_extension ext = true ->
  Catalog.splitext (stem ++ ext) = (stem, ext).
Proof.
  unfold CatalogStatements.plain_stem, CatalogStatements.is_extension.
  intros Hstem Hext.
  apply andb_true_iff in Hstem. destruct Hstem as [Hsep Hdots].
  apply negb_true_iff in Hsep. apply negb_true_iff in Hdots.
  destruct ext as [|a e]; [discriminate |].
  apply andb_true_iff in Hext. destruct Hext as [Hext Hesep].
  apply andb_true_iff in Hext. destruct Hext as [Ha Hedot].
  apply Ascii.eqb_eq in Ha. subst a.
  apply negb_true_iff in Hesep. apply negb_true_iff in Hedot.
  unfold Catalog.splitext.
  rewrite (rfind_last "." stem e Hedot).
  rewrite rfind_absent
    by (rewrite occurs_app; simpl; now rewrite Hsep, Hesep).
  destruct (-1 <? Z.of_nat (String.length stem))%Z eqn:E;
    [| apply Z.ltb_ge in E; lia].
  unfold Catalog.slice.
  replace (Z.to_nat (-1 + 1)) with 0 by reflexivity.
  replace (Z.to_nat (Z.of_nat (String.length stem) - (-1 + 1)))
    with (String.length stem) by lia.
  rewrite substring_prefix, Hdots.
  replace (Z.to_nat 0) with 0 by reflexivity.
  replace (Z.to_nat (Z.of_nat (String.length stem) - 0))
    with (String.length stem) by lia.
  rewrite substring_prefix.
  rewrite Nat2Z.id, string_length_app.
  replace (Z.to_nat (Z.of_nat (String.length stem
                                + String.length (String "." e))
                     - Z.of_nat (String.length stem)))
    with (String.length (String "." e)) by lia.
  now rewrite substring_skip, substring_whole.
Qed.

(** X20: a workbook of the directory whose name is a stem and an extension
    is listed by [list_datasets] under its stem.  [get_dataset_path] leads
    from that listed name back to the file exactly when the extension is
    [.xlsx] in lower case and the stem does not itself end in an Excel
    extension: a file such as [old.xls] or [DATA.XLSX] is listed, but its
    listed name resolves to another path. *)
Theorem listed_dataset_resolves (module_dir : string)
        (path_exists : string -> bool)
        (listdir : string -> result (list string))
        (d : string) (files : list string) (stem ext : string) :
  path_exists d = true ->
  listdir d = Ok files ->
  In (stem ++ ext)%string files ->
  CatalogStatements.plain_stem stem = true ->
  CatalogStatements.is_extension ext = true ->
  Catalog.is_excel (stem ++ ext) = true ->
  exists names,
    Catalog.list_datasets module_dir path_exists listdir (Some d) = Ok names
    /\ In stem names
    /\ (Catalog.get_dataset_path module_dir stem (Some d)
        = Catalog.join d [(stem ++ ext)%string]
        <-> ext = ".xlsx"%string /\ Catalog.is_excel stem = false).
Proof.
  intros Hd Hfiles Hin Hstem Hext Hexcel.
  unfold Catalog.list_datasets. rewrite Hd, Hfiles. simpl.
  eexists. split; [reflexivity |]. split.
  - apply in_map_iff. exists (stem ++ ext)%string. split.
    + now rewrite splitext_stem_ext.
    + apply filter_In. now split.
  - unfold Catalog.get_dataset_path, Catalog.join. simpl. split.
    + intros H. destruct (Catalog.is_excel stem) eqn:E; simpl in H.
      * exfalso. rewrite <- (string_app_nil_r stem) in H at 1.
        apply join_step_inv in H;
          try now apply plain_stem_not_absolute.
        apply string_app_inv_head in H. subst ext. discriminate.
      * apply join_step_inv in H;
          try now apply plain_stem_not_absolute.
        apply string_app_inv_head in H. now split.
    + intros [-> ->]. reflexivity.
Qed.

Lemma listed_dataset_resolves_witness :
  exists names,
    Catalog.list_datasets SessionSamples.module_dir SessionSamples.present
                          SessionSamples.files (Some "data") = Ok names
    /\ In "old"%string names
    /\ (Catalog.get_dataset_path SessionSamples.module_dir "old"
                                 (Some "data")
        = Catalog.join "data" [("old" ++ ".xls")%string]
        <-> ".xls"%string = ".xlsx"%string
            /\ Catalog.is_excel "old" = false).
Proof.
  apply (listed_dataset_resolves
           SessionSamples.module_dir SessionSamples.present
           SessionSamples.files "data"
           ["people.xlsx"; "old.xls"; "notes.txt"]%string "old" ".xls").
  - reflexivity.
  - reflexivity.
  - simpl. right. left. reflexivity.
  - reflexivity.
  - reflexivity.
  - reflexivity.
Defined.

(** The docstring directory: three workbooks, listed without their
    extension, each resolving to its file. *)
Example list_datasets_docstring :
  Catalog.list_datasets "/pkg/so_survey" (fun _ => true)
    (fun _ => Ok ["survey_2020.xlsx"; "survey_2021.xlsx";
                  "survey_2022.xlsx"; "README.md"]%string)
    (Some "/path/to/data"%string)
  = Ok ["survey_2020"; "survey_2021"; "survey_2022"]%string
  /\ Catalog.get_dataset_path "/pkg/so_survey" "survey_2021"
                              (Some "/path/to/data"%string)
     = "/path/to/data/survey_2021.xlsx"%string.
Proof. split; reflexivity. Qed.

(** ** The analysis commands of the session *)

(** X21: [describe] and [filter] look the analysis functions up in the
    module namespace when they are called, and repl.py imports neither.
    Whenever a name is unbound, as in the module as written, the command
    that needs it, given a loaded table and well-formed arguments, prints
    the [NameError] and nothing else: no statistics, no preview, no
    question, and the session stays as it was. *)
Theorem analysis_commands_need_imports
        (globals : Globals)
        (shlex_split : string -> result (list string))
        (self : SurveyREPL) (t : DataFrame) :
  current_df self = Some t ->
  (g_describe globals = None ->
   forall args,
     strip args = ""%string \/ (exists l, shlex_split args = Ok l) ->
     do_describe globals shlex_split self args
     = mkOutcome self
         [Echo [Lit "Error calculating statistics: ";
                PExn (NameError "describe")]]
         Continue)
  /\ (g_filter_by_column globals = None ->
      forall args answer column values,
        shlex_split args = Ok (column :: values) ->
        values <> [] ->
        contains t column = true ->
        do_filter globals shlex_split self args answer
        = mkOutcome self
            [Echo [Lit "Error filtering dataset: ";
                   PExn (NameError "filter_by_column")]]
            Continue).
Proof.
  intros Hdf. split.
  - intros Hunbound args Hargs.
    unfold do_describe, try_except, io_bind, lift, print, emit, io_ret,
      lookup.
    rewrite Hdf, Hunbound.
    destruct (String.eqb (strip args) "") eqn:E; [reflexivity |].
    destruct Hargs as [Hblank | [l Hl]].
    + rewrite Hblank in E. discriminate.
    + rewrite Hl. reflexivity.
  - intros Hunbound args answer column values Hsplit Hvalues Hcol.
    unfold do_filter, try_except, io_bind, lift, print, emit, io_ret,
      lookup.
    rewrite Hdf, Hsplit, Hunbound.
    destruct values as [|v vs]; [congruence |].
    cbn [List.length Nat.ltb Nat.leb hd tl]. rewrite Hcol. reflexivity.
Qed.

Lemma analysis_commands_need_imports_witness :
  do_describe repl_globals Samples.words Samples.loaded "age"
  = mkOutcome Samples.loaded
      [Echo [Lit "Error calculating statistics: ";
             PExn (NameError "describe")]]
      Continue.
Proof.
  apply (proj1 (analysis_commands_need_imports
                  repl_globals Samples.words Samples.loaded Samples.people
                  eq_refl) eq_refl).
  right. eexists. reflexivity.
Defined.

(** ** The [subset] command, end to end *)

Lemma saved_quiet notices advisory rest :
  flat_map (fun e => match e with
                     | Cli.Saved t path => [(t, path)]
                     | _ => []
                     end)
           (map Cli.Noted notices ++ map Cli.Warned advisory ++ rest)
  = flat_map (fun e => match e with
                       | Cli.Saved t path => [(t, path)]
                       | _ => []
                       end) rest.
Proof.
  rewrite !flat_map_app.
  assert (H1 : forall l, flat_map (fun e => match e with
                                            | Cli.Saved t path => [(t, path)]
                                            | _ => []
                                            end) (map Cli.Noted l) = []).
  { induction l; simpl; auto. }
  assert (H2 : forall l, flat_map (fun e => match e with
                                            | Cli.Saved t path => [(t, path)]
                                            | _ => []
                                            end) (map Cli.Warned l) = []).
  { induction l; simpl; auto. }
  now rewrite H1, H2.
Qed.

Lemma handled_saves_nothing prefix notices advisory f :
  Cli.saved (Cli.handled prefix
               (map Cli.Noted notices ++ map Cli.Warned advisory) f) = []
  /\ Cli.status (Cli.handled prefix
                   (map Cli.Noted notices ++ map Cli.Warned advisory) f)
     <> Cli.Returned.
Proof.
  unfold Cli.handled, Cli.saved.
  destruct (Cli.caught f); simpl; (split; [| discriminate]).
  - rewrite <- (app_nil_r (map Cli.Warned advisory)). apply saved_quiet.
  - rewrite <- app_assoc. apply saved_quiet.
Qed.

Lemma handled_after_notices prefix notices f :
  Cli.saved (Cli.handled prefix (map Cli.Noted notices) f) = []
  /\ Cli.status (Cli.handled prefix (map Cli.Noted notices) f)
     <> Cli.Returned.
Proof.
  rewrite <- (app_nil_r (map Cli.Noted notices)).
  apply (handled_saves_nothing prefix notices []).
Qed.

(** X22: the [subset] command writes a file only when every step
    succeeded.  Either nothing is written and the command does not return
    normally (any [Exception] is reported and the exit status is 1), or it
    returns after writing exactly one file, to the given output path: the
    table the loader read from the resolved path, with the same columns
    and exactly the rows whose cell under the column is a text equal to one
    of the given values, in order.  For a dataset whose resolved path does
    not exist, the report is the [FileNotFoundError] for that path. *)
Theorem subset_command_end_to_end
        (module_dir : string) (path_exists : string -> bool)
        (read_excel : string -> ReplLoad.sheet -> result Loader.excel)
        (int_of_str : string -> result Z)
        (to_csv : DataFrame -> string -> result unit)
        (dataset column : string) (values : list string) (output : string)
        (directory sheet : option string) :
  let r := Cli.subset_command module_dir path_exists read_excel int_of_str
                              to_csv dataset column values output directory
                              sheet in
  let p := Catalog.get_dataset_path module_dir dataset directory in
  ((Cli.saved r = [] /\ Cli.status r <> Cli.Returned)
   \/ exists sheet_name notices df t,
        Cli.sheet_of int_of_str sheet = Ok sheet_name
        /\ Loader.load_survey path_exists read_excel p sheet_name
           = (notices, inr df)
        /\ to_csv t output = Ok tt
        /\ Cli.saved r = [(t, output)]
        /\ Cli.status r = Cli.Returned
        /\ (wf df ->
            columns t = columns df
            /\ rows t
               = filter (fun row =>
                           existsb (cell_eqb (row_cell df column row))
                                   (map CStr values))
                        (rows df)))
  /\ (path_exists p = false ->
      forall sheet_name,
        Cli.sheet_of int_of_str sheet = Ok sheet_name ->
        r = Cli.mkRun
              [Cli.Complained "Error filtering dataset: "
                 (Cli.FromLoader (Loader.FileNotFoundError p))]
              (Cli.Exited 1)).
Proof.
  intros r p. split.
  - unfold r, Cli.subset_command. fold p.
    destruct (Cli.sheet_of int_of_str sheet) as [sheet_name|e] eqn:Hsheet.
    2:{ left. apply (handled_after_notices _ []). }
    destruct (Loader.load_survey path_exists read_excel p sheet_name)
      as [notices [e|df]] eqn:Hload.
    { left. apply handled_after_notices. }
    destruct (filter_by_column df column (map CStr values))
      as [[t advisory]|e] eqn:Hfilter.
    2:{ left. apply handled_after_notices. }
    destruct (to_csv t output) as [[]|e] eqn:Hcsv.
    2:{ left. apply handled_saves_nothing. }
    right. exists sheet_name, notices, df, t.
    repeat split; try assumption; try reflexivity.
    + unfold Cli.saved. cbn [Cli.events].
      rewrite <- app_assoc. rewrite saved_quiet. reflexivity.
    + destruct (filter_by_column_masked _ _ _ _ _ Hfilter) as (c & Hc & ->).
      apply columns_getitem_mask.
    + destruct (filter_by_column_masked _ _ _ _ _ Hfilter) as (c & Hc & ->).
      now apply (rows_masked_by_column df column c
                   (fun x => existsb (cell_eqb x) (map CStr values))).
  - intros Hmissing sheet_name Hsheet.
    unfold r, Cli.subset_command. fold p. rewrite Hsheet.
    unfold Loader.load_survey.
    unfold p at 1. rewrite get_dataset_path_is_excel. fold p.
    rewrite Hmissing. reflexivity.
Qed.

Lemma subset_command_end_to_end_witness :
  Cli.subset_command SessionSamples.module_dir (fun _ => false)
    (fun _ _ => Ok (Loader.Frame Samples.people)) Samples.no_int
    Samples.accept "people" "country" ["USA"] "usa.csv" (Some "data") None
  = Cli.mkRun
      [Cli.Complained "Error filtering dataset: "
         (Cli.FromLoader (Loader.FileNotFoundError "data/people.xlsx"))]
      (Cli.Exited 1).
Proof.
  apply (proj2 (subset_command_end_to_end
                  SessionSamples.module_dir (fun _ => false)
                  (fun _ _ => Ok (Loader.Frame Samples.people))
                  Samples.no_int Samples.accept "people" "country" ["USA"]
                  "usa.csv" (Some "data") None)
               eq_refl ReplLoad.NoSheet eq_refl).
Defined.

(** On the docstring table: the two rows of the USA are written; asked for
    the age 25, which the command line passes as text, the command writes
    a file without rows. *)
Example subset_people :
  Cli.saved
    (Cli.subset_command SessionSamples.module_dir SessionSamples.present
       (fun _ _ => Ok (Loader.Frame Samples.people)) Samples.no_int
       Samples.accept "people" "country" ["USA"] "usa.csv" None None)
  = [(mkDF [0; 3]%Z
        [ mkColumn "country" Object [CStr "USA"; CStr "USA"];
          mkColumn "age" Int64 [CInt 25; CInt 40];
          mkColumn "years_coding" Int64 [CInt 1; CInt 15] ], "usa.csv")]
  /\ Cli.saved
       (Cli.subset_command SessionSamples.module_dir SessionSamples.present
          (fun _ _ => Ok (Loader.Frame Samples.people)) Samples.no_int
          Samples.accept "people" "age" ["25"] "young.csv" None None)
     = [(mkDF []
           [ mkColumn "country" Object []; mkColumn "age" Int64 [];
             mkColumn "years_coding" Int64 [] ], "young.csv")].
Proof. split; reflexivity. Qed.

(** ** Statistics of chosen columns *)

Lemma find_column_In t column c :
  find_column t column = Some c ->
  In c (df_columns t) /\ col_name c = column.
Proof.
  unfold find_column. intros H. apply find_some in H as [Hin Heq].
  apply String.eqb_eq in Heq. now split.
Qed.

Lemma find_column_unique t c :
  NoDup (columns t) -> In c (df_columns t) ->
  find_column t (col_name c) = Some c.
Proof.
  unfold columns, find_column.
  induction (df_columns t) as [|c0 cs IH]; simpl; [contradiction |].
  intros Hnd Hin. inversion Hnd as [|x l Hnotin Hnd']; subst.
  destruct (String.eqb (col_name c) (col_name c0)) eqn:E.
  - destruct Hin as [-> | Hin]; [reflexivity |].
    apply String.eqb_eq in E. exfalso. apply Hnotin. rewrite <- E.
    now apply in_map.
  - destruct Hin as [-> | Hin]; [now rewrite String.eqb_refl in E |].
    now apply IH.
Qed.

Lemma getitem_list_present t include :
  Forall (fun k => contains t k = true) include ->
  getitem_list t include
  = Ok (mkDF (df_index t)
             (flat_map (fun k => match find_column t k with
                                 | Some c => [c]
                                 | None => []
                                 end) include)).
Proof.
  intros Hall. unfold getitem_list.
  replace (filter (fun k => negb (contains t k)) include) with (@nil string);
    [reflexivity |].
  symmetry. induction Hall as [|k ks Hk _ IH]; simpl; [reflexivity |].
  now rewrite Hk.
Qed.

(** X23: with an include list of distinct column names, [describe] returns
    the same six entries for a column as it does for the whole table: its
    columns are the numeric columns named in the list, in the order of the
    list, and every column of the result is a column of the full result;
    text columns named in the list are left out without error. *)
Theorem describe_include_columns t include :
  wf t -> NoDup include ->
  Forall (fun k => contains t k = true) include ->
  exists st st_all,
    describe t (Some include) = Ok st
    /\ describe t None = Ok st_all
    /\ sf_index st = sf_index st_all
    /\ map fst (sf_columns st)
       = filter (fun k => match find_column t k with
                          | Some c => is_number (col_dtype c)
                          | None => false
                          end) include
    /\ (forall entry,
           In entry (sf_columns st)
           <-> In (fst entry) include /\ In entry (sf_columns st_all)).
Proof.
  intros (Hnd & _ & _) _ Hall.
  rewrite (describe_include t include _ (getitem_list_present t include Hall)).
  rewrite !describe_shape.
  eexists _, _. split; [reflexivity |]. split; [reflexivity |].
  cbn [sf_index sf_columns]. split; [reflexivity |].
  unfold Spec.numeric_columns. cbn [df_columns]. split.
  - rewrite map_map. cbn [fst].
    clear Hall. induction include as [|k ks IH]; simpl; [reflexivity |].
    destruct (find_column t k) as [c|] eqn:Hf; simpl; [| exact IH].
    destruct (find_column_In t k c Hf) as [_ Hname].
    destruct (is_number (col_dtype c)); simpl; [| exact IH].
    now rewrite Hname, IH.
  - intros entry. rewrite !in_map_iff. split.
    + intros (c & <- & Hc). apply filter_In in Hc as [Hc Hnum].
      apply in_flat_map in Hc as (k & Hk & Hc).
      destruct (find_column t k) as [c'|] eqn:Hf; [| contradiction].
      destruct Hc as [-> | []].
      destruct (find_column_In t k c Hf) as [Hin Hname].
      cbn [fst]. split; [now rewrite Hname |].
      exists c. split; [reflexivity |]. apply filter_In. now split.
    + intros (Hk & c & <- & Hc). cbn [fst] in Hk.
      apply filter_In in Hc as [Hc Hnum].
      exists c. split; [reflexivity |]. apply filter_In. split; [| exact Hnum].
      apply in_flat_map. exists (col_name c). split; [exact Hk |].
      rewrite (find_column_unique t c Hnd Hc). now left.
Qed.

Lemma describe_include_columns_witness :
  exists st st_all,
    describe Samples.people (Some ["years_coding"; "country"]) = Ok st
    /\ describe Samples.people None = Ok st_all
    /\ sf_index st = sf_index st_all
    /\ map fst (sf_columns st)
       = filter (fun k => match find_column Samples.people k with
                          | Some c => is_number (col_dtype c)
                          | None => false
                          end) ["years_coding"; "country"]
    /\ (forall entry,
           In entry (sf_columns st)
           <-> In (fst entry) ["years_coding"; "country"]
               /\ In entry (sf_columns st_all)).
Proof.
  apply (describe_include_columns Samples.people ["years_coding"; "country"]).
  - exact wf_people.
  - repeat constructor; simpl; intuition discriminate.
  - repeat constructor.
Defined.

(** ** A missing marker as a bound *)

Lemma missing_bound_step op t column :
  contains t column = true ->
  exists out,
    (s <- getitem t column ;; mask <- series_compare op s CNaN ;;
     Ok (getitem_mask t mask)) = Ok out
    /\ columns out = columns t
    /\ df_index out = [].
Proof.
  intros Hc. destruct (contains_find_column _ _ Hc) as [c Hf].
  unfold getitem. rewrite Hf. cbn [Py.bind].
  unfold series_compare. cbn [isna s_values Py.bind].
  eexists. split; [reflexivity |]. split.
  - apply columns_getitem_mask.
  - unfold getitem_mask. cbn [df_index].
    apply (select_all_false (fun _ : cell => false)).
    apply Forall_forall. reflexivity.
Qed.

(** X24: a missing marker ([NaN]) given as a bound compares false with
    every cell, so the range filter returns a table with the same columns
    and no rows, and raises nothing, whatever the column holds: also for a
    column that mixes text and numbers, where any other bound raises. *)
Theorem filter_by_value_range_missing_bound t column min_value max_value :
  contains t column = true ->
  In (min_value, max_value)
     [(Some CNaN, None); (None, Some CNaN); (Some CNaN, Some CNaN)] ->
  exists out,
    filter_by_value_range t column min_value max_value = Ok out
    /\ columns out = columns t
    /\ rows out = [].
Proof.
  intros Hc Hin. unfold filter_by_value_range. rewrite Hc. cbn [negb].
  unfold copy.
  assert (Hrows : forall out, df_index out = [] -> rows out = []).
  { intros out H. unfold rows. now rewrite H. }
  destruct Hin as [H | [H | [H | []]]]; inversion H; subst; clear H.
  - destruct (missing_bound_step Ge t column Hc) as (out & -> & Hcols & Hidx).
    cbn [Py.bind]. eauto.
  - cbn [Py.bind].
    destruct (missing_bound_step Le t column Hc) as (out & -> & Hcols & Hidx).
    cbn [Py.bind]. eauto.
  - destruct (missing_bound_step Ge t column Hc) as (out & -> & Hcols & Hidx).
    cbn [Py.bind].
    assert (Hc' : contains out column = true).
    { unfold contains. now rewrite Hcols. }
    destruct (missing_bound_step Le out column Hc')
      as (out' & -> & Hcols' & Hidx').
    cbn [Py.bind]. exists out'. split; [reflexivity |]. split.
    + now rewrite Hcols'.
    + now apply Hrows.
Qed.

Lemma filter_by_value_range_missing_bound_witness :
  exists out,
    filter_by_value_range Samples.mixed "answer" (Some CNaN) (Some CNaN)
    = Ok out
    /\ columns out = columns Samples.mixed
    /\ rows out = [].
Proof.
  apply (filter_by_value_range_missing_bound Samples.mixed "answer").
  - reflexivity.
  - simpl. right. right. left. reflexivity.
Defined.

(** ** The command line of the survey *)

Lemma prefix_split p s :
  String.prefix p s = true -> exists rest, s = (p ++ rest)%string.
Proof.
  revert s. induction p as [|a p IH]; intros s H.
  - now exists s.
  - destruct s as [|b s]; [discriminate |].
    cbn -[ascii_dec] in H.
    destruct (ascii_dec a b) as [<- | _]; [| discriminate].
    destruct (IH s H) as [rest ->]. now exists rest.
Qed.

Lemma rstrip_trailing s a b :
  rstrip s = (a ++ b)%string ->
  SurveyCliStatements.all_space b = true -> b = ""%string.
Proof.
  revert a b. induction s as [|c s IH]; intros a b H Hb.
  - destruct a; [simpl in H; now subst | discriminate].
  - simpl in H. destruct (rstrip s) as [|d r] eqn:E.
    + destruct (isspace c) eqn:Hc.
      * destruct a; [simpl in H; now subst | discriminate].
      * destruct a as [|x a]; simpl in H.
        -- subst b. simpl in Hb. now rewrite Hc in Hb.
        -- inversion H. destruct a; [simpl in *; now subst | discriminate].
    + destruct a as [|x a]; simpl in H.
      * subst b. simpl in Hb. apply andb_true_iff in Hb. destruct Hb as [_ Hb].
        specialize (IH ""%string (String d r) eq_refl Hb). discriminate.
      * inversion H. now apply (IH a b).
Qed.

Lemma split_ws_all_space s :
  SurveyCli.split_ws s = [] -> SurveyCliStatements.all_space s = true.
Proof.
  induction s as [|c s IH]; [reflexivity |].
  cbn [SurveyCli.split_ws SurveyCliStatements.all_space].
  destruct (isspace c); [exact IH |].
  destruct s as [|d s]; [discriminate |].
  destruct (isspace d); [discriminate |].
  destruct (SurveyCli.split_ws (String d s)); discriminate.
Qed.

Lemma split_ws_words s :
  Forall (fun w => SurveyCliStatements.has_space w = false)
         (SurveyCli.split_ws s).
Proof.
  induction s as [|c s IH]; [constructor |].
  cbn [SurveyCli.split_ws].
  destruct (isspace c) eqn:Hc; [exact IH |].
  destruct s as [|d s].
  - constructor; [simpl; now rewrite Hc | constructor].
  - destruct (isspace d) eqn:Hd.
    + constructor; [simpl; now rewrite Hc | exact IH].
    + destruct (SurveyCli.split_ws (String d s)) as [|w ws].
      * constructor; [simpl; now rewrite Hc | constructor].
      * inversion IH; subst. constructor; [| assumption].
        simpl. rewrite Hc. assumption.
Qed.

Lemma has_space_occurs w :
  SurveyCliStatements.has_space w = false ->
  CatalogStatements.occurs " " w = false.
Proof.
  induction w as [|c w IH]; [reflexivity |]. simpl.
  intros H. apply orb_false_iff in H. destruct H as [Hc Hw].
  rewrite (IH Hw), orb_false_r.
  destruct (Ascii.eqb c " ") eqn:E; [| reflexivity].
  apply Ascii.eqb_eq in E. subst c. discriminate.
Qed.

Lemma split_max_length sep s n :
  List.length (SurveyCli.split_max sep s n) <= S n.
Proof.
  revert n. induction s as [|c s IH]; intros n; simpl; [lia |].
  destruct n as [|m]; simpl; [lia |].
  destruct (Ascii.eqb c sep); simpl.
  - specialize (IH m). lia.
  - specialize (IH (S m)).
    destruct (SurveyCli.split_max sep s (S m)); simpl in *; lia.
Qed.

Lemma split_max_init sep s n i :
  S i < List.length (SurveyCli.split_max sep s n) ->
  CatalogStatements.occurs sep (nth i (SurveyCli.split_max sep s n) "")
  = false.
Proof.
  revert n i. induction s as [|c s IH]; intros n i; simpl; [lia |].
  destruct n as [|m]; simpl; [lia |].
  destruct (Ascii.eqb c sep) eqn:E; simpl.
  - destruct i as [|j]; [reflexivity |]. intros H. apply IH. lia.
  - specialize (IH (S m)).
    destruct (SurveyCli.split_max sep s (S m)) as [|w ws]; simpl; [lia |].
    intros H. destruct i as [|j].
    + simpl. rewrite E. apply (IH 0). simpl in *. lia.
    + apply (IH (S j)). simpl in *. lia.
Qed.

Lemma three_parts sep s :
  (List.length (SurveyCli.split_max sep s 2) <? 3) = false ->
  exists a q opt,
    SurveyCli.split_max sep s 2 = [a; q; opt]
    /\ CatalogStatements.occurs sep q = false.
Proof.
  intros H. apply Nat.ltb_ge in H.
  pose proof (split_max_length sep s 2) as Hle.
  pose proof (split_max_init sep s 2 1) as Hq.
  destruct (SurveyCli.split_max sep s 2) as [|a [|q [|opt [|x l]]]];
    simpl in *; try lia.
  exists a, q, opt. split; [reflexivity |]. apply Hq. lia.
Qed.

Lemma not_a_column q cols :
  Forall (fun c => CatalogStatements.occurs " " c = true) cols ->
  CatalogStatements.occurs " " q = false ->
  str_in q cols = false.
Proof.
  intros Hall Hq. unfold str_in.
  induction Hall as [|c cols Hc _ IH]; simpl; [reflexivity |].
  rewrite IH, orb_false_r.
  destruct (String.eqb q c) eqn:E; [| reflexivity].
  apply String.eqb_eq in E. subst c. congruence.
Qed.

Section SurveyCommands.

Variable repr_float : Q -> string.
Variable re_search : string -> result (string -> bool).

Local Abbreviation step := (SurveyCli.step repr_float re_search).

(** The words of a [dist] line as the loop passes it on. *)
Lemma dist_words l rest :
  strip l = ("dist " ++ rest)%string ->
  exists q more,
    SurveyCli.split_ws (strip l) = "dist"%string :: q :: more
    /\ SurveyCliStatements.has_space q = false.
Proof.
  intros H. rewrite H.
  assert (Hws : SurveyCli.split_ws ("dist " ++ rest)
                = "dist"%string :: SurveyCli.split_ws rest)
    by reflexivity.
  rewrite Hws.
  pose proof (split_ws_words rest) as Hwords.
  destruct (SurveyCli.split_ws rest) as [|q more] eqn:E.
  - exfalso. apply split_ws_all_space in E.
    unfold strip in H.
    pose proof (rstrip_trailing (lstrip l) "dist" (String " " rest) H) as Hb.
    simpl in Hb. specialize (Hb E). discriminate.
  - exists q, more. split; [reflexivity |]. now inversion Hwords.
Qed.

(** X25: a [dist] line is read by its words.  The question is the second
    word, which always exists and holds no blank; the mode is
    multiple-choice exactly when a third word is [MC] in any letter case,
    further words being ignored; one line is printed per entry of the
    distribution, in its order.  The usage line of [dist] is never
    printed, and no exception leaves the command. *)
Theorem dist_reads_second_word survey l :
  String.prefix "dist " (strip l) = true ->
  exists q more dist,
    SurveyCli.split_ws (strip l) = "dist"%string :: q :: more
    /\ SurveyCliStatements.has_space q = false
    /\ answer_distribution repr_float survey q
         (SurveyCliStatements.asks_multiple_choice more) = Ok dist
    /\ step survey (strip l)
       = (map (fun os => SurveyCli.Share (fst os) (snd os)) dist, Ok tt).
Proof.
  intros Hp. destruct (prefix_split _ _ Hp) as [rest Hcmd].
  destruct (dist_words l rest Hcmd) as (q & more & Hwords & Hq).
  destruct (answer_distribution_returns repr_float survey q
              (SurveyCliStatements.asks_multiple_choice more))
    as [dist Hdist].
  exists q, more, dist. repeat split; try assumption.
  unfold SurveyCli.step. rewrite Hwords. rewrite Hcmd.
  change (String.eqb ("dist " ++ rest) "help") with false.
  change (String.eqb ("dist " ++ rest) "structure") with false.
  change (String.prefix "searchq " ("dist " ++ rest)) with false.
  change (String.prefix "searcho " ("dist " ++ rest)) with false.
  change (String.prefix "subset " ("dist " ++ rest)) with false.
  rewrite Hcmd in Hp. rewrite Hp.
  cbv iota.
  change (List.length ("dist"%string :: q :: more) <? 2) with false.
  cbv iota.
  replace ((2 <? List.length ("dist"%string :: q :: more))
           && String.eqb (SurveyCli.upper (nth 2 ("dist"%string :: q :: more)
                                               ""%string)) "MC")
    with (SurveyCliStatements.asks_multiple_choice more)
    by (destruct more; reflexivity).
  cbn [nth]. now rewrite Hdist.
Qed.

Lemma absent_question_distribution survey q mc :
  contains (df survey) q = false ->
  answer_distribution repr_float survey q mc = Ok [].
Proof. intros H. unfold answer_distribution. now rewrite H. Qed.

Lemma absent_question_option survey q opt :
  contains (df survey) q = false ->
  SurveySearch.search_option repr_float re_search survey q opt = Ok [].
Proof. intros H. unfold SurveySearch.search_option. now rewrite H. Qed.

(** X26: a question whose name holds a blank cannot be addressed from the
    command line.  On a survey all of whose questions hold a blank, every
    [dist] line prints nothing, every [searcho] line prints its usage or an
    empty list of respondents, and every [subset] line prints its usage or
    a table without rows: the question handed to the survey is one word of
    the line, so it is never one of the survey's. *)
Theorem questions_with_blank_unreachable survey l :
  Forall (fun c => CatalogStatements.occurs " " c = true)
         (columns (df survey)) ->
  (String.prefix "dist " (strip l) = true ->
   step survey (strip l) = ([], Ok tt))
  /\ (String.prefix "searcho " (strip l) = true ->
      step survey (strip l)
      = ([SurveyCli.Text "Usage: searcho <question> <option>"], Ok tt)
      \/ step survey (strip l) = ([SurveyCli.Indices []], Ok tt))
  /\ (String.prefix "subset " (strip l) = true ->
      step survey (strip l)
      = ([SurveyCli.Text "Usage: subset <question> <option>"], Ok tt)
      \/ exists t,
           step survey (strip l) = ([SurveyCli.Table t], Ok tt)
           /\ rows t = []
           /\ columns t = columns (df survey)).
Proof.
  intros Hall. split; [| split].
  - intros Hp. destruct (prefix_split _ _ Hp) as [rest Hcmd].
    destruct (dist_words l rest Hcmd) as (q & more & Hwords & Hq).
    unfold SurveyCli.step. rewrite Hwords. rewrite Hcmd.
    change (String.eqb ("dist " ++ rest) "help") with false.
    change (String.eqb ("dist " ++ rest) "structure") with false.
    change (String.prefix "searchq " ("dist " ++ rest)) with false.
    change (String.prefix "searcho " ("dist " ++ rest)) with false.
    change (String.prefix "subset " ("dist " ++ rest)) with false.
    rewrite Hcmd in Hp. rewrite Hp.
    cbv iota.
    change (List.length ("dist"%string :: q :: more) <? 2) with false.
    cbv iota. cbn [nth].
    rewrite absent_question_distribution; [reflexivity |].
    apply not_a_column; [exact Hall | now apply has_space_occurs].
  - intros Hp. destruct (prefix_split _ _ Hp) as [rest Hcmd].
    rewrite Hcmd. unfold SurveyCli.step.
    change (String.eqb ("searcho " ++ rest) "help") with false.
    change (String.eqb ("searcho " ++ rest) "structure") with false.
    change (String.prefix "searchq " ("searcho " ++ rest)) with false.
    rewrite Hcmd in Hp. rewrite Hp.
    cbv iota.
    destruct (List.length (SurveyCli.split_max " " ("searcho " ++ rest) 2)
              <? 3) eqn:E; [now left |].
    destruct (three_parts _ _ E) as (a & q & opt & -> & Hq).
    right. rewrite absent_question_option; [reflexivity |].
    now apply not_a_column.
  - intros Hp. destruct (prefix_split _ _ Hp) as [rest Hcmd].
    rewrite Hcmd. unfold SurveyCli.step.
    change (String.eqb ("subset " ++ rest) "help") with false.
    change (String.eqb ("subset " ++ rest) "structure") with false.
    change (String.prefix "searchq " ("subset " ++ rest)) with false.
    change (String.prefix "searcho " ("subset " ++ rest)) with false.
    rewrite Hcmd in Hp. rewrite Hp.
    cbv iota.
    destruct (List.length (SurveyCli.split_max " " ("subset " ++ rest) 2)
              <? 3) eqn:E; [now left |].
    destruct (three_parts _ _ E) as (a & q & opt & -> & Hq).
    right. unfold SurveySearch.subset_respondents.
    rewrite absent_question_option by now apply not_a_column.
    cbn [Py.bind]. unfold SurveySearch.loc. cbn [filter flat_map].
    eexists. split; [reflexivity |]. split; [reflexivity |].
    unfold columns. cbn [df_columns]. rewrite map_map. reflexivity.
Qed.

Local Abbreviation loop := (SurveyCli.loop repr_float re_search).

Lemma loop_returned survey lines :
  snd (loop survey lines) = SurveyCli.Returned ->
  exists l, In l lines /\ str_in (strip l) ["exit"; "quit"] = true.
Proof.
  induction lines as [|l lines IH]; cbn [SurveyCli.loop];
    [simpl; discriminate |].
  destruct (str_in (strip l) ["exit"; "quit"]) eqn:E.
  - intros _. exists l. split; [now left | exact E].
  - destruct (step survey (strip l)) as [o [[]|e]];
      [| simpl; discriminate].
    destruct (loop survey lines) as [o' e'] eqn:El. cbn [snd] in *.
    intros ->. destruct (IH eq_refl) as (l' & Hin & Hl').
    exists l'. split; [now right | exact Hl'].
Qed.

Lemma loop_never_exits survey lines code :
  snd (loop survey lines) <> SurveyCli.Exited code.
Proof.
  induction lines as [|l lines IH]; cbn [SurveyCli.loop];
    [simpl; discriminate |].
  destruct (str_in (strip l) ["exit"; "quit"]); [simpl; discriminate |].
  destruct (step survey (strip l)) as [o [[]|e]]; [| simpl; discriminate].
  destruct (loop survey lines) as [o' e']. exact IH.
Qed.

Lemma loop_stops survey pre l post :
  str_in (strip l) ["exit"; "quit"] = true ->
  loop survey (pre ++ l :: post) = loop survey (pre ++ [l]).
Proof.
  intros Hl. induction pre as [|p pre IH]; cbn [app SurveyCli.loop].
  - now rewrite Hl.
  - destruct (str_in (strip p) ["exit"; "quit"]); [reflexivity |].
    destruct (step survey (strip p)) as [o [[]|e]]; [| reflexivity].
    now rewrite IH.
Qed.

(** X27: the loop returns only when [exit] or [quit] was entered, and no
    line after it is read.  It never calls [sys.exit]; when the input ends
    without either, the loop is left by an exception: the [EOFError] of
    [input], or one raised by a command before. *)
Theorem loop_returns_only_on_exit survey lines :
  (snd (loop survey lines) = SurveyCli.Returned ->
   exists l, In l lines /\ str_in (strip l) ["exit"; "quit"] = true)
  /\ (forall pre l post,
         str_in (strip l) ["exit"; "quit"] = true ->
         loop survey (pre ++ l :: post) = loop survey (pre ++ [l]))
  /\ (Forall (fun l => str_in (strip l) ["exit"; "quit"] = false) lines ->
      exists e, snd (loop survey lines) = SurveyCli.Uncaught e).
Proof.
  split; [apply loop_returned | split; [apply loop_stops |]].
  intros Hnone.
  destruct (snd (loop survey lines)) as [| code | e] eqn:E.
  - destruct (loop_returned survey lines E) as (l & Hin & Hl).
    rewrite Forall_forall in Hnone. rewrite (Hnone l Hin) in Hl.
    discriminate.
  - exfalso. exact (loop_never_exits survey lines code E).
  - now exists e.
Qed.

End SurveyCommands.

Lemma dist_reads_second_word_witness :
  exists q more dist,
    SurveyCli.split_ws (strip "dist Q1 mc  ")
    = "dist"%string :: q :: more
    /\ SurveyCliStatements.has_space q = false
    /\ answer_distribution (fun _ => ""%string) Samples.survey q
         (SurveyCliStatements.asks_multiple_choice more) = Ok dist
    /\ SurveyCli.step (fun _ => ""%string) SurveySamples.literal
                      Samples.survey (strip "dist Q1 mc  ")
       = (map (fun os => SurveyCli.Share (fst os) (snd os)) dist, Ok tt).
Proof.
  apply (dist_reads_second_word (fun _ => ""%string) SurveySamples.literal
           Samples.survey "dist Q1 mc  ").
  reflexivity.
Defined.

Lemma questions_with_blank_unreachable_witness :
  SurveyCli.step (fun _ => ""%string) SurveySamples.literal
                 SurveySamples.worded (strip "dist Main language")
  = ([], Ok tt).
Proof.
  apply (proj1 (questions_with_blank_unreachable
                  (fun _ => ""%string) SurveySamples.literal
                  SurveySamples.worded "dist Main language"
                  (Forall_cons "Main language"%string
                     (eq_refl : CatalogStatements.occurs
                                  " " "Main language" = true)
                     (Forall_nil _)))).
  reflexivity.
Defined.

Lemma loop_returns_only_on_exit_witness :
  exists e,
    snd (SurveyCli.loop (fun _ => ""%string) SurveySamples.literal
                        Samples.survey ["structure"; "dist Q2"]%string)
    = SurveyCli.Uncaught e.
Proof.
  apply (proj2 (proj2 (loop_returns_only_on_exit
                         (fun _ => ""%string) SurveySamples.literal
                         Samples.survey ["structure"; "dist Q2"]%string))).
  repeat constructor.
Defined.

(** [tests/test_survey.py] at the command line: the multiple-choice
    distribution of Q1, then the respondents who answered Yes to Q2. *)
Example main_on_test_survey :
  SurveyCli.main (fun _ => ""%string) SurveySamples.literal
                 SurveySamples.reads_answers
                 ["cli.py"; "test_survey.xlsx"]%string
                 ["dist Q1 MC"; "searcho Q2 Yes"; "quit"]%string
  = ([ SurveyCli.Text "Stack Overflow Survey CLI. Type 'help' for commands.";
       SurveyCli.Asked "survey> ";
       SurveyCli.Share (CStr "A") (Qred 0.375);
       SurveyCli.Share (CStr "B") (Qred 0.375);
       SurveyCli.Share (CStr "C") (Qred 0.25);
       SurveyCli.Asked "survey> ";
       SurveyCli.Indices [0; 2; 4]%Z;
       SurveyCli.Asked "survey> " ],
     SurveyCli.Returned).
Proof. reflexivity. Qed.
